(** * client-session: deep mutation tracking and the session lifecycle

    A shallow embedding of [DeepProxy.js] (the recursive [Proxy] wrapper) and
    of [client-session.js] (the [SessionObj] entity and the [ClientSession]
    Express middleware), with the properties of the design document settled
    against it.

    Scope of the embedding.

    - A JS object is its table of own enumerable properties, in property
      order: an association list.  Its prototype is [Object.prototype], as
      for what [JSON.parse] and an object literal make; of the prototype the
      model has the names of its properties and no more.  Accessors and the
      length bookkeeping of arrays are not part of the model.  A number is an
      integer, printed as JS prints it when it is a safe integer (below
      2^53 in size).  A new property goes last in property order, as in JS
      for a key that is no array index; the theorems that fix a property
      order ask for such a key, and not [__proto__], which JS does not
      store as a property, nor [toJSON], which [JSON.stringify] calls when
      it holds a function.
    - The state tree is a tree (the design excludes shared or cyclic nodes),
      so a node is embedded by value and an in-place store is a functional
      update along the access path.
    - A [Proxy] made by [DeepProxy.proxify] is the constructor [VProxy]: it
      carries the [path] its handler closes over and the property table of
      the object it wraps.  [proxify] registers every proxy it makes in the
      private [#preproxy] WeakMap under the proxy itself, with the wrapped
      object as value, and nothing else ever makes or registers a proxy:
      "[#preproxy.has v]" is therefore "[v] is a [VProxy]" and
      "[#preproxy.get v]" is the wrapped object.
    - The clock ([Date.now()]) is a parameter of the request, in
      milliseconds: every read of it within the request gives the same
      instant.  [jsonwebtoken] and [JSON.parse] are parameters. *)

From Stdlib Require Import List String Ascii ZArith Bool Lia DecimalString.
Import ListNotations.
Open Scope string_scope.
Open Scope Z_scope.

Set Warnings "-register-all".

(* ===================================================================== *)
(** * Errors and results *)

(** What a JS [throw] carries in this code base: the [TypeError] of the
    runtime ([new Proxy(null, _)], [Object.keys(null)], a property access on
    [undefined], a store on a primitive in strict mode, a call of a
    non-function), the [SyntaxError] of [JSON.parse], and the [Error] that
    [SessionObj] raises with its message. *)
Inductive error : Type :=
| TypeError
| SyntaxError
| Error (message : string).

Inductive result (A : Type) : Type :=
| Ok (a : A)
| Throw (e : error).

Arguments Ok {A} a.
Arguments Throw {A} e.

Definition is_ok {A} (r : result A) : bool :=
  match r with Ok _ => true | Throw _ => false end.

(* ===================================================================== *)
(** * Values *)

(** A value as the caller hands it in, or as [JSON.parse] returns it: no
    proxy inside.  [RFun] is the closure that the constructor stores under
    [terminate] (lines 33-35 and 39-41), and the model has no other
    function: a function of the caller's own is not a value of this
    type. *)
Inductive raw : Type :=
| RNull
| RBool (b : bool)
| RNum (n : Z)
| RStr (s : string)
| RFun
| RObj (props : list (string * raw)).

(** A value inside the tracked tree. *)
Inductive value : Type :=
| VNull
| VBool (b : bool)
| VNum (n : Z)
| VStr (s : string)
| VFun
| VObj (props : list (string * value))
| VProxy (path : list string) (props : list (string * value)).

(** [typeof v === 'object']: true of [null], of an object and of a proxy
    over an object; false of a function. *)
Definition raw_typeof_object (v : raw) : bool :=
  match v with
  | RNull | RObj _ => true
  | _ => false
  end.

Definition typeof_object (v : value) : bool :=
  match v with
  | VNull | VObj _ | VProxy _ _ => true
  | _ => false
  end.

(** The same value, seen as a node of the tree (nothing wrapped). *)
Fixpoint inject (v : raw) : value :=
  match v with
  | RNull => VNull
  | RBool b => VBool b
  | RNum n => VNum n
  | RStr s => VStr s
  | RFun => VFun
  | RObj ps => VObj (map (fun kv => (fst kv, inject (snd kv))) ps)
  end.

(* ===================================================================== *)
(** * Property tables *)

Section Props.
Variable V : Type.

(** [obj[key]] *)
Fixpoint getProp (key : string) (ps : list (string * V)) : option V :=
  match ps with
  | [] => None
  | (k, v) :: rest => if String.eqb key k then Some v else getProp key rest
  end.

(** [obj] has [key] as a property of its own. *)
Definition hasProp (key : string) (ps : list (string * V)) : bool :=
  match getProp key ps with
  | Some _ => true
  | None => false
  end.

(** [obj[key] = v]: an existing property keeps its place, a new one goes
    last (in JS an array index goes before the names, and [__proto__] is
    no property: see [ordinary_key]). *)
Fixpoint putProp (key : string) (v : V) (ps : list (string * V))
  : list (string * V) :=
  match ps with
  | [] => [(key, v)]
  | (k, w) :: rest =>
      if String.eqb key k then (k, v) :: rest
      else (k, w) :: putProp key v rest
  end.

(** The ordinary [delete obj[key]] of the language. *)
Fixpoint removeProp (key : string) (ps : list (string * V))
  : list (string * V) :=
  match ps with
  | [] => []
  | (k, w) :: rest =>
      if String.eqb key k then removeProp key rest
      else (k, w) :: removeProp key rest
  end.
End Props.

Arguments getProp {V} key ps.
Arguments hasProp {V} key ps.
Arguments putProp {V} key v ps.
Arguments removeProp {V} key ps.

(** The names that every object inherits from [Object.prototype]. *)
Definition Object_prototype : list string :=
  ["constructor"; "__defineGetter__"; "__defineSetter__"; "hasOwnProperty";
   "__lookupGetter__"; "__lookupSetter__"; "isPrototypeOf";
   "propertyIsEnumerable"; "toString"; "valueOf"; "__proto__";
   "toLocaleString"].

Definition inherited (key : string) : bool :=
  existsb (String.eqb key) Object_prototype.

(** [key in obj]: a property of its own, or an inherited one. *)
Definition key_in {V} (key : string) (ps : list (string * V)) : bool :=
  hasProp key ps || inherited key.

(** The value of a decimal digit. *)
Definition digit (c : ascii) : option N :=
  let n := N_of_ascii c in
  if (N.leb 48 n && N.leb n 57)%bool then Some (n - 48)%N else None.

Fixpoint digits_value (acc : N) (s : string) : option N :=
  match s with
  | EmptyString => Some acc
  | String c rest =>
      match digit c with
      | Some d => digits_value (10 * acc + d)%N rest
      | None => None
      end
  end.

(** The number that [key] writes in canonical decimal form ([0], or digits
    that do not start with [0]), when it does: the keys that JS takes for
    array indices are among these. *)
Definition canonical_index (key : string) : option N :=
  match key with
  | EmptyString => None
  | String c rest =>
      if Ascii.eqb c "0" then
        match rest with
        | EmptyString => Some 0%N
        | _ => None
        end
      else digits_value 0 key
  end.

(** A key that [obj[key] = v] stores as a property placed after the
    properties there are, and that [JSON.stringify] prints as any other:
    no canonical number, not [__proto__] and not [toJSON]. *)
Definition ordinary_key (key : string) : bool :=
  match canonical_index key with
  | Some _ => false
  | None => negb (String.eqb key "__proto__" || String.eqb key "toJSON")
  end.

(* ===================================================================== *)
(** * DeepProxy *)

Module DeepProxy.

(** [proxify(obj, path)], lines 51-60.  The loop wraps every property
    whose [typeof] is ['object'], under the path extended by its key; then
    the object itself is wrapped and registered.  On [null] the loop has
    nothing to visit and [new Proxy(null, _)] throws a [TypeError]; the
    function is entered only on the session root and on values whose
    [typeof] is ['object'] (lines 6, 14 and 54). *)
Fixpoint proxify (obj : raw) (path : list string) : result value :=
  match obj with
  | RObj ps =>
      let fix each (ps : list (string * raw))
        : result (list (string * value)) :=
        match ps with
        | [] => Ok []
        | (key, v) :: rest =>
            match
              (if raw_typeof_object v then proxify v (path ++ [key])
               else Ok (inject v))
            with
            | Throw e => Throw e
            | Ok v' =>
                match each rest with
                | Throw e => Throw e
                | Ok rest' => Ok ((key, v') :: rest')
                end
            end
        end in
      match each ps with
      | Throw e => Throw e
      | Ok ps' => Ok (VProxy path ps')
      end
  | _ => Throw TypeError
  end.

(** The loop of [proxify] over a property table, as a function of its
    own. *)
Definition proxify_props (path : list string)
  : list (string * raw) -> result (list (string * value)) :=
  fix each (ps : list (string * raw)) : result (list (string * value)) :=
    match ps with
    | [] => Ok []
    | (key, v) :: rest =>
        match
          (if raw_typeof_object v then proxify v (path ++ [key])
           else Ok (inject v))
        with
        | Throw e => Throw e
        | Ok v' =>
            match each rest with
            | Throw e => Throw e
            | Ok rest' => Ok ((key, v') :: rest')
            end
        end
    end.

(** [unproxy(obj, key)], lines 38-49, as its effect on the slot
    [obj[key]], which holds [v].  A registered proxy is replaced by the
    object it wraps; then every property of the slot whose [typeof] is
    ['object'] is visited in turn.  [Object.keys(null)] throws a
    [TypeError]: the slot is returned as the throw leaves it, with the
    error.  The [#preproxy.delete] of line 41 is applied to the slot after
    the store, that is to the wrapped object, which is no key of the
    WeakMap: it removes nothing. *)
Fixpoint unproxy (v : value) : value * option error :=
  let fix each (ps : list (string * value))
    : list (string * value) * option error :=
    match ps with
    | [] => ([], None)
    | (k, w) :: rest =>
        if typeof_object w then
          match unproxy w with
          | (w', Some e) => ((k, w') :: rest, Some e)
          | (w', None) =>
              let (rest', e) := each rest in ((k, w') :: rest', e)
          end
        else
          let (rest', e) := each rest in ((k, w) :: rest', e)
    end in
  match v with
  | VProxy _ ps => let (ps', e) := each ps in (VObj ps', e)
  | VObj ps => let (ps', e) := each ps in (VObj ps', e)
  | VNull => (VNull, Some TypeError)
  | _ => (v, None)
  end.

(** What a trap hands to the hook of the handler: the full path of the
    property, [[...path, key]]. *)
Inductive hook : Type :=
| HookSet (key : list string)
| HookDelete (key : list string).

(** The [set] trap of [createHandler(path)], lines 12-22, on the wrapped
    object [target].  It wraps a value whose [typeof] is ['object'],
    stores it, and calls the [set] hook with the full path.  The hook runs
    after the store, on the tree as the store left it: the trap returns
    the target after the store and the hook call that is due. *)
Definition set (path : list string) (target : list (string * value))
           (key : string) (v : raw)
  : list (string * value) * result hook :=
  match
    (if raw_typeof_object v then proxify v (path ++ [key])
     else Ok (inject v))
  with
  | Throw e => (target, Throw e)
  | Ok v' => (putProp key v' target, Ok (HookSet (path ++ [key])))
  end.

(** The [deleteProperty] trap, lines 24-34.  When [key in target], the
    slot is unwrapped, [deleted] is computed as [key in target] and, when
    it is true, the [deleteProperty] hook is called; the trap returns
    [deleted].  Otherwise it returns [false].  For a key that the target
    only inherits, the slot read is a function or the prototype itself:
    [unproxy] finds no proxy and no key to visit, and stores nothing. *)
Definition deleteProperty (path : list string)
           (target : list (string * value)) (key : string)
  : list (string * value) * result (bool * option hook) :=
  match getProp key target with
  | Some v =>
      let (v', e) := unproxy v in
      let target' := putProp key v' target in
      match e with
      | Some err => (target', Throw err)
      | None =>
          let deleted := key_in key target' in
          if deleted then
            (target', Ok (deleted, Some (HookDelete (path ++ [key]))))
          else (target', Ok (deleted, None))
      end
  | None =>
      if inherited key then
        (target, Ok (true, Some (HookDelete (path ++ [key]))))
      else (target, Ok (false, None))
  end.

End DeepProxy.

(* ===================================================================== *)
(** * JSON.stringify *)

Module JSON.

Definition dquote : string := String "034"%char EmptyString.

Definition hex_digit (n : nat) : ascii :=
  nth n ["0"; "1"; "2"; "3"; "4"; "5"; "6"; "7"; "8"; "9";
         "a"; "b"; "c"; "d"; "e"; "f"]%char "0"%char.

(** One character of [QuoteJSONString]: the quote, the backslash and the
    control characters are escaped. *)
Definition escape (c : ascii) : string :=
  let n := nat_of_ascii c in
  if Nat.eqb n 34 then String "\"%char dquote
  else if Nat.eqb n 92 then "\\"
  else if Nat.eqb n 8 then "\b"
  else if Nat.eqb n 9 then "\t"
  else if Nat.eqb n 10 then "\n"
  else if Nat.eqb n 12 then "\f"
  else if Nat.eqb n 13 then "\r"
  else if Nat.ltb n 32 then
    "\u00" ++ String (hex_digit (Nat.div n 16))
                (String (hex_digit (Nat.modulo n 16)) EmptyString)
  else String c EmptyString.

Fixpoint escape_all (s : string) : string :=
  match s with
  | EmptyString => EmptyString
  | String c rest => escape c ++ escape_all rest
  end.

Definition quote (s : string) : string := dquote ++ escape_all s ++ dquote.

(** The decimal digits of an integer: what JS prints for a safe
    integer. *)
Definition number (n : Z) : string := NilZero.string_of_int (Z.to_int n).

(** [SerializeJSONProperty]: [None] is [undefined], the result for a
    function.  A property whose value serializes to [undefined] is left
    out of its object.  A proxy without a [get] or [ownKeys] trap
    serializes as the object it wraps. *)
Fixpoint serialize (v : value) : option string :=
  let fix members (ps : list (string * value)) : list string :=
    match ps with
    | [] => []
    | (k, w) :: rest =>
        match serialize w with
        | Some s => (quote k ++ ":" ++ s) :: members rest
        | None => members rest
        end
    end in
  match v with
  | VNull => Some "null"
  | VBool true => Some "true"
  | VBool false => Some "false"
  | VNum n => Some (number n)
  | VStr s => Some (quote s)
  | VFun => None
  | VObj ps => Some ("{" ++ String.concat "," (members ps) ++ "}")
  | VProxy _ ps => Some ("{" ++ String.concat "," (members ps) ++ "}")
  end.

Fixpoint members (ps : list (string * value)) : list string :=
  match ps with
  | [] => []
  | (k, w) :: rest =>
      match serialize w with
      | Some s => (quote k ++ ":" ++ s) :: members rest
      | None => members rest
      end
  end.

(** [JSON.stringify(obj)] for an object [obj], given by its property
    table: always a string. *)
Definition stringify (obj : list (string * value)) : string :=
  "{" ++ String.concat "," (members obj) ++ "}".

End JSON.

(* ===================================================================== *)
(** * The request: what the code does to [req] and [res] *)

(** The calls made on the response, the calls of [next], and the calls of
    the issuance callback with their argument (line 28), in the order they
    happen. *)
Inductive event : Type :=
| Issue (payload : string)
| Cookie (name token : string) (expires : Z) (httpOnly : bool)
| ClearCookie (name : string)
| SendStatus (code : Z)
| Next.

(** [req.clientSession] (absent before the middleware has run) and the
    trace of the request so far. *)
Record state : Type := {
  clientSession : option value;
  trace : list event
}.

(** A computation that may throw; what was done before a throw stays
    done. *)
Definition M (A : Type) : Type := state -> result A * state.

Definition ret {A} (a : A) : M A := fun st => (Ok a, st).

Definition bind {A B} (m : M A) (f : A -> M B) : M B :=
  fun st =>
    match m st with
    | (Ok a, st') => f a st'
    | (Throw e, st') => (Throw e, st')
    end.

Definition throw {A} (e : error) : M A := fun st => (Throw e, st).

Definition emit (e : event) : M unit :=
  fun st => (Ok tt, {| clientSession := clientSession st;
                       trace := trace st ++ [e] |}).

Definition set_clientSession (s : value) : M unit :=
  fun st => (Ok tt, {| clientSession := Some s; trace := trace st |}).

Definition lift {A} (r : result A) : M A := fun st => (r, st).

Declare Scope js_scope.
Delimit Scope js_scope with js.
Notation "x <- m ;; k" := (bind m (fun x => k))
  (at level 61, m at next level, right associativity) : js_scope.
Notation "m ;; k" := (bind m (fun _ => k))
  (at level 61, right associativity) : js_scope.
Open Scope js_scope.

(** The calls of the issuance callback in a trace, with their arguments. *)
Fixpoint issued (t : list event) : list string :=
  match t with
  | [] => []
  | Issue payload :: rest => payload :: issued rest
  | _ :: rest => issued rest
  end.

(* ===================================================================== *)
(** * Property access by the caller *)

(** [x[k]] read by the caller.  No handler has a [get] trap: a read on a
    proxy is a read on the object it wraps.  [None] is [undefined]. *)
Definition get (x : value) (k : string) : option value :=
  match x with
  | VObj ps => getProp k ps
  | VProxy _ ps => getProp k ps
  | _ => None
  end.

(** The node [x] once its property [k] holds [c]. *)
Definition with_prop (x : value) (k : string) (c : value) : value :=
  match x with
  | VObj ps => VObj (putProp k c ps)
  | VProxy path ps => VProxy path (putProp k c ps)
  | _ => x
  end.

(** The caller walks [x.k1.k2...kn] and applies [f] to the node it reaches;
    the node is updated in place, so every node above holds the updated
    one.  A step through a missing property, [null] or a primitive ends in
    the [TypeError] of an access on [undefined]. *)
Fixpoint update_at {A} (nav : list string) (f : value -> value * result A)
         (x : value) : value * result A :=
  match nav with
  | [] => f x
  | k :: nav' =>
      match get x k with
      | Some c => let (c', r) := update_at nav' f c in (with_prop x k c', r)
      | None => (x, Throw TypeError)
      end
  end.

(** The node at the end of the walk. *)
Fixpoint node_at (nav : list string) (x : value) : option value :=
  match nav with
  | [] => Some x
  | k :: nav' =>
      match get x k with
      | Some c => node_at nav' c
      | None => None
      end
  end.

(** [x[key] = v] by the caller (a module is strict code).  On a proxy the
    [set] trap runs; on an object that is not wrapped the store is the
    ordinary one; a store on [null] or on a primitive throws.  A property
    put on a function is no part of the tree. *)
Definition store (key : string) (v : raw) (x : value)
  : value * result (option DeepProxy.hook) :=
  match x with
  | VProxy path target =>
      match DeepProxy.set path target key v with
      | (target', Ok h) => (VProxy path target', Ok (Some h))
      | (target', Throw e) => (VProxy path target', Throw e)
      end
  | VObj ps => (VObj (putProp key (inject v) ps), Ok None)
  | VFun => (x, Ok None)
  | _ => (x, Throw TypeError)
  end.

(** [delete x[key]] by the caller.  On a proxy the [deleteProperty] trap
    runs, and in strict code a trap that returns [false] makes the [delete]
    throw a [TypeError]; on an object that is not wrapped the property is
    removed; on a string, [length] and the indices below its length cannot
    be deleted, and in strict code the attempt throws. *)
Definition remove (key : string) (x : value)
  : value * result (option DeepProxy.hook) :=
  match x with
  | VProxy path target =>
      match DeepProxy.deleteProperty path target key with
      | (target', Ok (true, h)) => (VProxy path target', Ok h)
      | (target', Ok (false, _)) => (VProxy path target', Throw TypeError)
      | (target', Throw e) => (VProxy path target', Throw e)
      end
  | VObj ps => (VObj (removeProp key ps), Ok None)
  | VNull => (x, Throw TypeError)
  | VStr s =>
      if String.eqb key "length" then (x, Throw TypeError)
      else
        match canonical_index key with
        | Some i =>
            if N.ltb i (N.of_nat (String.length s)) then (x, Throw TypeError)
            else (x, Ok None)
        | None => (x, Ok None)
        end
  | _ => (x, Ok None)
  end.

(** [self.#data] of the session whose handle is [h]: the object that the
    root proxy wraps. *)
Definition data_of (h : value) : list (string * value) :=
  match h with
  | VProxy _ ps => ps
  | VObj ps => ps
  | _ => []
  end.

(* ===================================================================== *)
(** * SessionObj *)

Module SessionObj.

(** [reservedProp(rootProp)], lines 49-57: the loop over
    [['originIP', 'terminate']]. *)
Definition reservedProps : list string := ["originIP"; "terminate"].

Fixpoint reservedProp_loop (rootProp : string) (props : list string)
  : bool :=
  match props with
  | [] => false
  | prop :: rest =>
      if String.eqb rootProp prop then true
      else reservedProp_loop rootProp rest
  end.

Definition reservedProp (rootProp : string) : bool :=
  reservedProp_loop rootProp reservedProps.

(** [reservedProp(key[0])] for the path [key] that the trap hands over;
    [key[0]] of an empty path is [undefined], equal to no name. *)
Definition guard (key : list string) : option string :=
  match key with
  | [] => None
  | k0 :: _ => if reservedProp k0 then Some k0 else None
  end.

Section Callbacks.
(** The two callbacks the constructor is given. *)
Variable issueToken : string -> M unit.
Variable terminateCallback : M unit.

(** [#issueToken], lines 27-29; the call is recorded in the trace. *)
Definition issue (payload : string) : M unit :=
  emit (Issue payload) ;; issueToken payload.

(** The [set] hook, lines 62-67, on [self.#data]. *)
Definition set (data : list (string * value)) (key : list string)
  : M unit :=
  match guard key with
  | Some k0 =>
      throw (Error ("client-session: " ++ k0 ++
                    " is a reserved property and cannot be set."))
  | None => issue (JSON.stringify data)
  end.

(** The [deleteProperty] hook, lines 69-75 (its [console.log] left
    out). *)
Definition deleteProperty (data : list (string * value))
           (key : list string) : M unit :=
  match guard key with
  | Some k0 =>
      throw (Error ("client-sesion: " ++ k0 ++
                    " is a reserved property and cannot be deleted."))
  | None => issue (JSON.stringify data)
  end.

Definition run_hook (data : list (string * value))
           (h : option DeepProxy.hook) : M unit :=
  match h with
  | Some (DeepProxy.HookSet key) => set data key
  | Some (DeepProxy.HookDelete key) => deleteProperty data key
  | None => ret tt
  end.

(** The constructor, lines 23-77.  [#data] is the previous payload, or
    a new object holding [originIP]; in both branches the [terminate]
    closure is stored in it; the result is [new DeepProxy(#data, _)],
    that is [proxify(#data, [])].  The store of [terminate] on a payload
    that is [null] or a primitive throws (a class body is strict code;
    [JSON.parse] returns no function). *)
Definition construct (prevPayload : option raw) (ip : string)
  : result value :=
  match prevPayload with
  | Some (RObj ps) =>
      DeepProxy.proxify (RObj (putProp "terminate" RFun ps)) []
  | Some _ => Throw TypeError
  | None =>
      DeepProxy.proxify
        (RObj (putProp "terminate" RFun
                 (putProp "originIP" (RStr ip) []))) []
  end.

(** The caller's [req.clientSession.k1...kn[key] = v]: the store, then
    the hook that the trap calls, which reads the whole [#data]. *)
Definition assign (nav : list string) (key : string) (v : raw)
  : M unit :=
  fun st =>
    match clientSession st with
    | None => (Throw TypeError, st)
    | Some h =>
        let (h', r) := update_at nav (store key v) h in
        let st' := {| clientSession := Some h'; trace := trace st |} in
        match r with
        | Throw e => (Throw e, st')
        | Ok hk => run_hook (data_of h') hk st'
        end
    end.

(** The caller's [delete req.clientSession.k1...kn[key]]. *)
Definition delete (nav : list string) (key : string) : M unit :=
  fun st =>
    match clientSession st with
    | None => (Throw TypeError, st)
    | Some h =>
        let (h', r) := update_at nav (remove key) h in
        let st' := {| clientSession := Some h'; trace := trace st |} in
        match r with
        | Throw e => (Throw e, st')
        | Ok hk => run_hook (data_of h') hk st'
        end
    end.

(** The caller's [req.clientSession.terminate()]: the property is read
    and called.  [VFun] is the closure of lines 33-35 and 39-41, which
    calls [terminateCallback]; a call of anything else the model has there
    is a call of a non-function. *)
Definition terminate : M unit :=
  fun st =>
    match clientSession st with
    | None => (Throw TypeError, st)
    | Some h =>
        match get h "terminate" with
        | Some VFun => terminateCallback st
        | _ => (Throw TypeError, st)
        end
    end.
End Callbacks.

End SessionObj.

(* ===================================================================== *)
(** * ClientSession *)

(** The options of the constructor, lines 94-98; [restrictIPAccess] may be
    left out. *)
Record options : Type := {
  secret : string;
  expiresIn : Z;
  restrictIPAccess : option bool
}.

(** What the middleware reads of the request: the [accessToken] cookie,
    [req.ip], and the clock during the request ([Date.now()], in
    milliseconds). *)
Record request : Type := {
  accessToken : option string;
  ip : string;
  Date_now : Z
}.

(** What [jwt.verify] hands to its callback: an error, or the payload of
    the token ([exp] in seconds and [data]). *)
Inductive token_error : Type := Malformed | InvalidSignature | Expired.

Inductive verified : Type :=
| VerifyError (err : token_error)
| Payload (exp : Z) (data : string).

Module ClientSession.
Section Instance.
(** [jwt.sign({exp, data}, secret, {algorithm: 'HS256'})] under a given
    clock, [jwt.verify(token, secret, _)] under a given clock, and
    [JSON.parse]. *)
Variable jwt_sign : Z -> Z -> string -> string -> string.
Variable jwt_verify : Z -> string -> string -> verified.
Variable JSON_parse : string -> result raw.

Variable this : options.
Variable req : request.

(** [updateCookie(token, req, res)], lines 100-106. *)
Definition updateCookie (token : string) : M unit :=
  emit (Cookie "accessToken" token (Date_now req + expiresIn this) true).

(** The issuance callback of [createSessionObj], lines 123-133.  The read
    of the clock for [exp] (line 126) and the one in [updateCookie]
    (line 102) are taken at one instant. *)
Definition issueToken (tokenPayload : string) : M unit :=
  let token :=
    jwt_sign (Date_now req)
             (Date_now req / 1000 + expiresIn this) tokenPayload
             (secret this) in
  updateCookie token.

(** [createSessionObj(payload, req, res)], lines 115-139. *)
Definition createSessionObj (payload : option raw) : M value :=
  lift (SessionObj.construct payload (ip req)).

(** The termination callback of [createSessionObj], lines 134-137. *)
Definition terminateCallback : M unit :=
  emit (ClearCookie "accessToken") ;;
  s <- createSessionObj None ;;
  set_clientSession s.

(** [tokenData.originIP !== req.ip]; the read throws on [null]. *)
Definition originIP_differs (tokenData : raw) : result bool :=
  match tokenData with
  | RNull => Throw TypeError
  | RObj ps =>
      match getProp "originIP" ps with
      | Some (RStr s) => Ok (negb (String.eqb s (ip req)))
      | _ => Ok true
      end
  | _ => Ok true
  end.

(** The truth value of [this.restrictIPAccess]. *)
Definition restricted : bool :=
  match restrictIPAccess this with
  | Some b => b
  | None => false
  end.

(** [middleware(req, res, next)], lines 149-176. *)
Definition middleware : M unit :=
  match accessToken req with
  | None =>
      s <- createSessionObj None ;;
      set_clientSession s ;;
      emit Next
  | Some token =>
      match jwt_verify (Date_now req) token (secret this) with
      | VerifyError _ => emit (SendStatus 403)
      | Payload _ data =>
          tokenData <- lift (JSON_parse data) ;;
          differs <- lift (originIP_differs tokenData) ;;
          if differs && restricted then emit (SendStatus 403)
          else
            s <- createSessionObj (Some tokenData) ;;
            set_clientSession s ;;
            emit Next
      end
  end.

(** The operations of the route handlers on [req.clientSession]. *)
Definition assign := SessionObj.assign issueToken.
Definition delete := SessionObj.delete issueToken.
Definition terminate := SessionObj.terminate terminateCallback.
End Instance.
End ClientSession.

(* ===================================================================== *)
(** * Sample inputs *)

Module Sample.
Definition this : options :=
  {| secret := "s"; expiresIn := 10; restrictIPAccess := None |}.

Definition strict : options :=
  {| secret := "s"; expiresIn := 10; restrictIPAccess := Some true |}.

(** A request without a token, and one that carries a token, both from
    [1.2.3.4]. *)
Definition first_visit : request :=
  {| accessToken := None; ip := "1.2.3.4"; Date_now := 1700000000000 |}.

Definition return_visit : request :=
  {| accessToken := Some "token"; ip := "1.2.3.4";
     Date_now := 1700000000000 |}.

Definition start : state := {| clientSession := None; trace := [] |}.

(** The state a fresh session at [1.2.3.4] is in, as the middleware
    leaves it. *)
Definition fresh : state :=
  {| clientSession :=
       Some (VProxy [] [("originIP", VStr "1.2.3.4"); ("terminate", VFun)]);
     trace := [Next] |}.

(** Stand-ins for [jsonwebtoken] and [JSON.parse]. *)
Definition sign (now exp : Z) (data key : string) : string :=
  JSON.number exp ++ "." ++ data ++ "." ++ key.

Definition verify_expired (now : Z) (token key : string) : verified :=
  VerifyError Expired.

Definition verify_ok (now : Z) (token key : string) : verified :=
  Payload 1700000010 token.

(** The payload of a token issued to [5.6.7.8]. *)
Definition elsewhere : raw :=
  RObj [("originIP", RStr "5.6.7.8"); ("counter", RNum 3)].

Definition parse (data : string) : result raw := Ok elsewhere.

(** The session rebuilt from that payload, as the middleware leaves it. *)
Definition rebuilt : state :=
  {| clientSession :=
       Some (VProxy [] [("originIP", VStr "5.6.7.8"); ("counter", VNum 3);
                        ("terminate", VFun)]);
     trace := [Next] |}.


End Sample.

(* ===================================================================== *)
(** * Definitions for the proofs *)

(** The loop of [unproxy] over the properties of the slot. *)
Fixpoint unproxy_props (ps : list (string * value))
  : list (string * value) * option error :=
  match ps with
  | [] => ([], None)
  | (k, w) :: rest =>
      if typeof_object w then
        match DeepProxy.unproxy w with
        | (w', Some e) => ((k, w') :: rest, Some e)
        | (w', None) =>
            let (rest', e) := unproxy_props rest in ((k, w') :: rest', e)
        end
      else
        let (rest', e) := unproxy_props rest in ((k, w) :: rest', e)
  end.

(** No [null] anywhere in the value. *)
Fixpoint null_free (v : raw) : bool :=
  let fix all (ps : list (string * raw)) : bool :=
    match ps with
    | [] => true
    | (_, w) :: rest => null_free w && all rest
    end in
  match v with
  | RNull => false
  | RObj ps => all ps
  | _ => true
  end.

Fixpoint null_free_props (ps : list (string * raw)) : bool :=
  match ps with
  | [] => true
  | (_, w) :: rest => null_free w && null_free_props rest
  end.

(** Every object of the tree under [v] is behind a proxy, and every proxy
    closes over the path of its place, [pos] for [v] itself; the tree holds
    no [null]. *)
Fixpoint wrapped (pos : list string) (v : value) : Prop :=
  let fix all (ps : list (string * value)) : Prop :=
    match ps with
    | [] => True
    | (k, w) :: rest => wrapped (pos ++ [k]) w /\ all rest
    end in
  match v with
  | VProxy path ps => path = pos /\ all ps
  | VObj _ => False
  | VNull => False
  | _ => True
  end.

Definition wrapped_props (pos : list string)
  : list (string * value) -> Prop :=
  fix all (ps : list (string * value)) : Prop :=
    match ps with
    | [] => True
    | (k, w) :: rest => wrapped (pos ++ [k]) w /\ all rest
    end.

(** What the [set] trap and the loop of [proxify] store for [v]. *)
Definition wrap (v : raw) (path : list string) : result value :=
  if raw_typeof_object v then DeepProxy.proxify v path else Ok (inject v).

(** A safe integer: JS prints it digit for digit. *)
Definition safe_integer (n : Z) : bool := Z.abs n <=? 9007199254740991.

Fixpoint distinct (keys : list string) : bool :=
  match keys with
  | [] => true
  | k :: rest => negb (existsb (String.eqb k) rest) && distinct rest
  end.

(** A value whose objects are property tables as JS has them in this
    order (ordinary keys, each once) and whose numbers are safe integers:
    the values on which the order of the members and the digits of the
    numbers in [JSON.stringify] are those of JS. *)
Fixpoint raw_plain (v : raw) : bool :=
  let fix all (ps : list (string * raw)) : bool :=
    match ps with
    | [] => true
    | (k, w) :: rest => ordinary_key k && raw_plain w && all rest
    end in
  match v with
  | RNum n => safe_integer n
  | RObj ps => distinct (map fst ps) && all ps
  | _ => true
  end.

Fixpoint plain (v : value) : bool :=
  let fix all (ps : list (string * value)) : bool :=
    match ps with
    | [] => true
    | (k, w) :: rest => ordinary_key k && plain w && all rest
    end in
  match v with
  | VNum n => safe_integer n
  | VObj ps => distinct (map fst ps) && all ps
  | VProxy _ ps => distinct (map fst ps) && all ps
  | _ => true
  end.

(** The first segment of a path, [key[0]]. *)
Definition first_segment (key : list string) : option string :=
  match key with
  | [] => None
  | k0 :: _ => Some k0
  end.

Section ValueInduction.
Variable P : value -> Prop.
Hypothesis HNull : P VNull.
Hypothesis HBool : forall b, P (VBool b).
Hypothesis HNum : forall n, P (VNum n).
Hypothesis HStr : forall s, P (VStr s).
Hypothesis HFun : P VFun.
Hypothesis HObj :
  forall ps, Forall (fun kv => P (snd kv)) ps -> P (VObj ps).
Hypothesis HProxy :
  forall path ps, Forall (fun kv => P (snd kv)) ps -> P (VProxy path ps).

(** Induction on a value, with the hypothesis on every property of an
    object. *)
Fixpoint value_tree_ind (v : value) : P v :=
  let fix props_ind (ps : list (string * value))
    : Forall (fun kv => P (snd kv)) ps :=
    match ps with
    | [] => Forall_nil _
    | kv :: rest => Forall_cons kv (value_tree_ind (snd kv)) (props_ind rest)
    end in
  match v with
  | VNull => HNull
  | VBool b => HBool b
  | VNum n => HNum n
  | VStr s => HStr s
  | VFun => HFun
  | VObj ps => HObj ps (props_ind ps)
  | VProxy path ps => HProxy path ps (props_ind ps)
  end.
End ValueInduction.

Section RawInduction.
Variable P : raw -> Prop.
Hypothesis HNull : P RNull.
Hypothesis HBool : forall b, P (RBool b).
Hypothesis HNum : forall n, P (RNum n).
Hypothesis HStr : forall s, P (RStr s).
Hypothesis HFun : P RFun.
Hypothesis HObj :
  forall ps, Forall (fun kv => P (snd kv)) ps -> P (RObj ps).

Fixpoint raw_tree_ind (v : raw) : P v :=
  let fix props_ind (ps : list (string * raw))
    : Forall (fun kv => P (snd kv)) ps :=
    match ps with
    | [] => Forall_nil _
    | kv :: rest => Forall_cons kv (raw_tree_ind (snd kv)) (props_ind rest)
    end in
  match v with
  | RNull => HNull
  | RBool b => HBool b
  | RNum n => HNum n
  | RStr s => HStr s
  | RFun => HFun
  | RObj ps => HObj ps (props_ind ps)
  end.
End RawInduction.

(* ===================================================================== *)
(** * Lifecycle: denial, origin binding, construction, termination *)

Lemma state_eta (st : state) :
  {| clientSession := clientSession st; trace := trace st |} = st.
Proof. destruct st; reflexivity. Qed.

Lemma issued_app (t u : list event) :
  issued (t ++ u) = (issued t ++ issued u)%list.
Proof.
  induction t as [|e t IH]; simpl; [reflexivity|].
  destruct e; simpl; rewrite IH; reflexivity.
Qed.

(** C5.  A request that carries a token on which [jwt.verify] reports an
    error (malformed, invalid signature or expired) is answered with status
    403 and nothing else: [req.clientSession] is left as it was (no session
    is built, none for an anonymous client either) and [next] is not
    called. *)
Theorem token_error_is_denied
        (jwt_verify : Z -> string -> string -> verified)
        (JSON_parse : string -> result raw)
        (this : options) (req : request) (token : string)
        (err : token_error) (st : state) :
  accessToken req = Some token ->
  jwt_verify (Date_now req) token (secret this) = VerifyError err ->
  ClientSession.middleware jwt_verify JSON_parse this req st =
    (Ok tt, {| clientSession := clientSession st;
               trace := trace st ++ [SendStatus 403] |}).
Proof.
  intros Htok Hver. unfold ClientSession.middleware.
  rewrite Htok, Hver. reflexivity.
Qed.

Lemma token_error_is_denied_witness :
  accessToken Sample.return_visit = Some "token" /\
  Sample.verify_expired (Date_now Sample.return_visit) "token"
                        (secret Sample.this) = VerifyError Expired /\
  ClientSession.middleware Sample.verify_expired Sample.parse Sample.this
                           Sample.return_visit Sample.start =
    (Ok tt, {| clientSession := None; trace := [SendStatus 403] |}).
Proof.
  split; [reflexivity|]. split; [reflexivity|].
  apply (@token_error_is_denied Sample.verify_expired Sample.parse
           Sample.this Sample.return_visit "token" Expired Sample.start);
    reflexivity.
Defined.

(** C8.  Building a session, fresh or from the payload of a token, calls
    nothing: the state and its trace are as before.  Hence the middleware
    as a whole, and a termination (which builds a session), add no call of
    the issuance callback to the trace. *)
Theorem construction_issues_nothing
        (jwt_verify : Z -> string -> string -> verified)
        (JSON_parse : string -> result raw)
        (this : options) (req : request) (payload : option raw)
        (st : state) :
  snd (ClientSession.createSessionObj req payload st) = st
  /\ issued (trace (snd (ClientSession.middleware jwt_verify JSON_parse
                           this req st))) = issued (trace st)
  /\ issued (trace (snd (ClientSession.terminate req st)))
     = issued (trace st).
Proof.
  split; [reflexivity|]. split.
  - unfold ClientSession.middleware.
    destruct (accessToken req) as [token|].
    + destruct (jwt_verify (Date_now req) token (secret this))
        as [err|exp data].
      * simpl. rewrite issued_app. simpl. apply app_nil_r.
      * unfold bind, lift.
        destruct (JSON_parse data) as [tokenData|e]; [|reflexivity].
        destruct (ClientSession.originIP_differs req tokenData)
          as [differs|e]; [|reflexivity].
        destruct (differs && ClientSession.restricted this).
        -- simpl. rewrite issued_app. simpl. apply app_nil_r.
        -- unfold ClientSession.createSessionObj, lift.
           destruct (SessionObj.construct (Some tokenData) (ip req));
             [|reflexivity].
           simpl. rewrite issued_app. simpl. apply app_nil_r.
    + simpl. rewrite issued_app. simpl. apply app_nil_r.
  - unfold ClientSession.terminate, SessionObj.terminate.
    destruct (clientSession st) as [h|]; [|reflexivity].
    destruct (get h "terminate") as [[]|]; try reflexivity.
    simpl. rewrite issued_app. simpl. apply app_nil_r.
Qed.

(** C7, on the fresh session at [1.2.3.4] after the caller ran
    [req.clientSession.terminate = false].  The set threw the
    reserved-property error, but [false] was stored over the closure:
    [req.clientSession.terminate()] then throws a [TypeError],
    [res.clearCookie] is not called, and [req.clientSession] is the
    session it was, not a new one. *)
Theorem terminate_fails_after_a_rejected_set
        (jwt_sign : Z -> Z -> string -> string -> string) :
  let set := ClientSession.assign jwt_sign Sample.this Sample.first_visit
                                  [] "terminate" (RBool false)
                                  Sample.fresh in
  let call := ClientSession.terminate Sample.first_visit (snd set) in
  fst set =
    Throw (Error
             "client-session: terminate is a reserved property and cannot be set.")
  /\ fst call = Throw TypeError
  /\ trace (snd call) = [Next]
  /\ clientSession (snd call) =
       Some (VProxy [] [("originIP", VStr "1.2.3.4");
                        ("terminate", VBool false)]).
Proof. repeat split. Qed.

(* ===================================================================== *)
(** * Issuance: the token and its cookie *)

(** One issuance signs a token whose [exp] is the clock in seconds plus
    [expiresIn], and sets the cookie with [expires] at the clock in
    milliseconds plus [expiresIn]. *)
Lemma issueToken_trace
      (jwt_sign : Z -> Z -> string -> string -> string)
      (this : options) (req : request) (payload : string) (st : state) :
  ClientSession.issueToken jwt_sign this req payload st =
    (Ok tt,
     {| clientSession := clientSession st;
        trace := trace st ++
          [Cookie "accessToken"
                  (jwt_sign (Date_now req)
                            (Date_now req / 1000 + expiresIn this)
                            payload (secret this))
                  (Date_now req + expiresIn this) true] |}).
Proof. reflexivity. Qed.

(** C4, at [expiresIn = 10] and the clock at 1700000000000 ms.  The token
    expires at second 1700000010, ten seconds on; the cookie is given the
    expiry 1700000000010 ms, ten milliseconds on, and not
    1700000010000 ms. *)
Theorem cookie_expiry_counts_milliseconds
        (jwt_sign : Z -> Z -> string -> string -> string)
        (payload : string) (st : state) :
  ClientSession.issueToken jwt_sign Sample.this Sample.first_visit payload st
  = (Ok tt,
     {| clientSession := clientSession st;
        trace := trace st ++
          [Cookie "accessToken"
                  (jwt_sign 1700000000000 1700000010 payload "s")
                  1700000000010 true] |})
  /\ 1700000000010 <>
     Date_now Sample.first_visit + 1000 * expiresIn Sample.this.
Proof.
  split; [reflexivity|]. simpl. lia.
Qed.

(* ===================================================================== *)
(** * The reserved-property guard *)

Lemma reservedProp_spec (rootProp : string) :
  SessionObj.reservedProp rootProp = true <->
  rootProp = "originIP" \/ rootProp = "terminate".
Proof.
  unfold SessionObj.reservedProp, SessionObj.reservedProps. simpl.
  destruct (String.eqb_spec rootProp "originIP") as [->|Hne1].
  - split; auto.
  - destruct (String.eqb_spec rootProp "terminate") as [->|Hne2].
    + split; auto.
    + split; [discriminate|]. intros [H|H]; contradiction.
Qed.

Lemma guard_reserved (k0 : string) (rest : list string) :
  k0 = "originIP" \/ k0 = "terminate" ->
  SessionObj.guard (k0 :: rest) = Some k0.
Proof.
  intros H. apply reservedProp_spec in H. simpl. rewrite H. reflexivity.
Qed.

Lemma guard_free (k0 : string) (rest : list string) :
  k0 <> "originIP" -> k0 <> "terminate" ->
  SessionObj.guard (k0 :: rest) = None.
Proof.
  intros H1 H2. simpl.
  destruct (SessionObj.reservedProp k0) eqn:E; [|reflexivity].
  apply reservedProp_spec in E. destruct E; contradiction.
Qed.


(* ===================================================================== *)
(** * Walking to a node *)

Lemma getProp_putProp_same {V} (k : string) (c : V) (ps : list (string * V)) :
  getProp k ps = Some c -> putProp k c ps = ps.
Proof.
  induction ps as [|[k' w] ps IH]; simpl; [discriminate|].
  destruct (String.eqb_spec k k') as [->|Hne].
  - intros H. injection H as ->. reflexivity.
  - intros H. rewrite (IH H). reflexivity.
Qed.

Lemma getProp_putProp {V} (k : string) (c : V) (ps : list (string * V)) :
  getProp k (putProp k c ps) = Some c.
Proof.
  induction ps as [|[k' w] ps IH]; simpl.
  - rewrite String.eqb_refl. reflexivity.
  - destruct (String.eqb_spec k k') as [->|Hne]; simpl.
    + rewrite String.eqb_refl. reflexivity.
    + apply String.eqb_neq in Hne. rewrite Hne. exact IH.
Qed.

Lemma with_prop_same (x c : value) (k : string) :
  get x k = Some c -> with_prop x k c = x.
Proof.
  destruct x; simpl; try discriminate; intros H;
    rewrite (getProp_putProp_same _ _ _ H); reflexivity.
Qed.

(** A step that leaves the node it reaches as it is leaves the whole tree
    as it is. *)
Lemma update_at_fixed {A} (f : value -> value * result A) (r : result A) :
  forall (nav : list string) (h x : value),
    node_at nav h = Some x -> f x = (x, r) -> update_at nav f h = (h, r).
Proof.
  induction nav as [|k nav IH]; simpl; intros h x Hnode Hf.
  - injection Hnode as ->. exact Hf.
  - destruct (get h k) as [c|] eqn:Hget; [|discriminate].
    rewrite (IH c x Hnode Hf). rewrite (with_prop_same _ _ _ Hget).
    reflexivity.
Qed.

(** The [set] trap on [null]: the value is taken for an object, the wrap
    throws, nothing is stored and no hook is called. *)
Lemma set_null_throws (path : list string) (target : list (string * value))
      (key : string) :
  DeepProxy.set path target key RNull = (target, Throw TypeError).
Proof. reflexivity. Qed.

(** C10.  Setting any key of a wrapped node, at any depth, to [null] throws
    a [TypeError] and leaves the state of the request as it was: the value
    is not stored and the issuance callback is not called. *)
Theorem assign_null_throws
        (jwt_sign : Z -> Z -> string -> string -> string)
        (this : options) (req : request)
        (nav : list string) (key : string) (st : state)
        (h : value) (path : list string) (target : list (string * value)) :
  clientSession st = Some h ->
  node_at nav h = Some (VProxy path target) ->
  ClientSession.assign jwt_sign this req nav key RNull st
  = (Throw TypeError, st).
Proof.
  intros Hcur Hnode.
  unfold ClientSession.assign, SessionObj.assign. rewrite Hcur.
  rewrite (update_at_fixed (store key RNull) (Throw TypeError)
             nav h _ Hnode eq_refl).
  rewrite <- Hcur. rewrite state_eta. reflexivity.
Qed.

Lemma assign_null_throws_witness :
  clientSession Sample.fresh =
    Some (VProxy [] [("originIP", VStr "1.2.3.4"); ("terminate", VFun)]) /\
  node_at [] (VProxy [] [("originIP", VStr "1.2.3.4"); ("terminate", VFun)])
  = Some (VProxy [] [("originIP", VStr "1.2.3.4"); ("terminate", VFun)]) /\
  ClientSession.assign Sample.sign Sample.this Sample.first_visit
                       [] "nickname" RNull Sample.fresh
  = (Throw TypeError, Sample.fresh).
Proof.
  split; [reflexivity|]. split; [reflexivity|].
  exact (@assign_null_throws Sample.sign Sample.this Sample.first_visit
           [] "nickname" Sample.fresh
           (VProxy [] [("originIP", VStr "1.2.3.4"); ("terminate", VFun)])
           [] [("originIP", VStr "1.2.3.4"); ("terminate", VFun)]
           eq_refl eq_refl).
Defined.

(* ===================================================================== *)
(** * Deletion *)

Lemma unproxy_proxy (path : list string) (ps : list (string * value)) :
  DeepProxy.unproxy (VProxy path ps) =
    let (ps', e) := unproxy_props ps in (VObj ps', e).
Proof. reflexivity. Qed.

Lemma unproxy_obj (ps : list (string * value)) :
  DeepProxy.unproxy (VObj ps) =
    let (ps', e) := unproxy_props ps in (VObj ps', e).
Proof. reflexivity. Qed.

Lemma serialize_obj (ps : list (string * value)) :
  JSON.serialize (VObj ps) = Some (JSON.stringify ps).
Proof. reflexivity. Qed.

Lemma serialize_proxy (path : list string) (ps : list (string * value)) :
  JSON.serialize (VProxy path ps) = Some (JSON.stringify ps).
Proof. reflexivity. Qed.

Lemma unproxy_props_members (ps : list (string * value)) :
  Forall (fun kv => JSON.serialize (fst (DeepProxy.unproxy (snd kv)))
                    = JSON.serialize (snd kv)) ps ->
  JSON.members (fst (unproxy_props ps)) = JSON.members ps.
Proof.
  induction 1 as [|[k w] rest Hw _ IHrest]; [reflexivity|].
  cbn [snd] in Hw. cbn [unproxy_props].
  destruct (typeof_object w).
  - destruct (DeepProxy.unproxy w) as [w' [e|]]; cbn [fst] in Hw.
    + cbn [fst JSON.members]. rewrite Hw. reflexivity.
    + destruct (unproxy_props rest) as [rest' e]. cbn [fst] in *.
      cbn [JSON.members]. rewrite Hw, IHrest. reflexivity.
  - destruct (unproxy_props rest) as [rest' e]. cbn [fst] in *.
    cbn [JSON.members]. rewrite IHrest. reflexivity.
Qed.

(** Unwrapping is invisible to the serialization, finished or cut short by
    a throw. *)
Lemma unproxy_serialize (v : value) :
  JSON.serialize (fst (DeepProxy.unproxy v)) = JSON.serialize v.
Proof.
  induction v as [| | | | |ps IH|path ps IH] using value_tree_ind;
    try reflexivity.
  - rewrite unproxy_obj. pose proof (unproxy_props_members ps IH) as H.
    destruct (unproxy_props ps) as [ps' e]. cbn [fst] in *.
    rewrite !serialize_obj. unfold JSON.stringify. rewrite H. reflexivity.
  - rewrite unproxy_proxy. pose proof (unproxy_props_members ps IH) as H.
    destruct (unproxy_props ps) as [ps' e]. cbn [fst] in *.
    rewrite serialize_obj, serialize_proxy. unfold JSON.stringify.
    rewrite H. reflexivity.
Qed.

Lemma members_putProp (key : string) (v v' : value)
      (ps : list (string * value)) :
  getProp key ps = Some v ->
  JSON.serialize v' = JSON.serialize v ->
  JSON.members (putProp key v' ps) = JSON.members ps.
Proof.
  intros Hget Hser. induction ps as [|[k w] ps IH]; [discriminate|].
  simpl in Hget. cbn [putProp].
  destruct (String.eqb key k).
  - injection Hget as ->. cbn [JSON.members]. rewrite Hser. reflexivity.
  - cbn [JSON.members]. rewrite (IH Hget). reflexivity.
Qed.

(** The [deleteProperty] trap removes nothing: a key that was in the target
    is in it afterwards. *)
Lemma deleteProperty_keeps_the_key (path : list string)
      (target : list (string * value)) (key : string) :
  hasProp key target = true ->
  hasProp key (fst (DeepProxy.deleteProperty path target key)) = true.
Proof.
  unfold hasProp, DeepProxy.deleteProperty.
  destruct (getProp key target) as [v|] eqn:Hget; [intros _|discriminate].
  destruct (DeepProxy.unproxy v) as [v' [err|]]; cbn [fst].
  - rewrite getProp_putProp. reflexivity.
  - unfold key_in, hasProp. rewrite getProp_putProp. cbn [fst orb].
    rewrite getProp_putProp. reflexivity.
Qed.

(** Nor does it change what the target serializes to. *)
Lemma deleteProperty_keeps_the_serialization (path : list string)
      (target : list (string * value)) (key : string) :
  JSON.stringify (fst (DeepProxy.deleteProperty path target key))
  = JSON.stringify target.
Proof.
  unfold DeepProxy.deleteProperty.
  destruct (getProp key target) as [v|] eqn:Hget;
    [|destruct (inherited key); reflexivity].
  pose proof (unproxy_serialize v) as Hser.
  destruct (DeepProxy.unproxy v) as [v' e]. cbn [fst] in Hser.
  assert (H : JSON.stringify (putProp key v' target) = JSON.stringify target)
    by (unfold JSON.stringify; rewrite (members_putProp _ _ _ _ Hget Hser);
        reflexivity).
  destruct e as [err|]; cbn [fst]; [exact H|].
  destruct (key_in key (putProp key v' target)); exact H.
Qed.

(** C1, on the session [{originIP: '1.2.3.4', terminate, a: 1}].
    [delete req.clientSession.a] returns normally; the tree is the one
    before the [delete], [a] still holds 1, and the one string handed to
    the issuance callback has the member [a]. *)
Theorem delete_leaves_the_key
        (jwt_sign : Z -> Z -> string -> string -> string) :
  let h := VProxy [] [("originIP", VStr "1.2.3.4"); ("terminate", VFun);
                      ("a", VNum 1)] in
  let st := {| clientSession := Some h; trace := [] |} in
  let out := ClientSession.delete jwt_sign Sample.this Sample.first_visit
                                  [] "a" st in
  fst out = Ok tt
  /\ clientSession (snd out) = Some h
  /\ get h "a" = Some (VNum 1)
  /\ issued (trace (snd out)) =
       ["{" ++ JSON.quote "originIP" ++ ":" ++ JSON.quote "1.2.3.4" ++ ","
            ++ JSON.quote "a" ++ ":1}"].
Proof. repeat split. Qed.

(** C2, on the fresh session at [1.2.3.4].
    [req.clientSession.originIP = '6.6.6.6'] throws the reserved-property
    error and the issuance callback is not called, but the store has been
    made: [originIP] holds ['6.6.6.6'] afterwards and the tree serializes
    to another string than before. *)
Theorem reserved_set_is_stored
        (jwt_sign : Z -> Z -> string -> string -> string) :
  let out := ClientSession.assign jwt_sign Sample.this Sample.first_visit
                                  [] "originIP" (RStr "6.6.6.6")
                                  Sample.fresh in
  fst out =
    Throw (Error
             "client-session: originIP is a reserved property and cannot be set.")
  /\ trace (snd out) = trace Sample.fresh
  /\ clientSession (snd out) =
       Some (VProxy [] [("originIP", VStr "6.6.6.6"); ("terminate", VFun)])
  /\ clientSession (snd out) <> clientSession Sample.fresh
  /\ JSON.stringify [("originIP", VStr "6.6.6.6"); ("terminate", VFun)]
     = "{" ++ JSON.quote "originIP" ++ ":" ++ JSON.quote "6.6.6.6" ++ "}"
  /\ JSON.stringify [("originIP", VStr "1.2.3.4"); ("terminate", VFun)]
     = "{" ++ JSON.quote "originIP" ++ ":" ++ JSON.quote "1.2.3.4" ++ "}".
Proof. repeat split. discriminate. Qed.

(** C3, on the session rebuilt from the payload
    [{originIP: '1.2.3.4', user: {name: 'x', tmp: 1}}].
    [delete req.clientSession.user.tmp] is let through by the guard and the
    issuance callback is called once, with a string in which [user] still
    has its member [tmp]: the serialization of the root as it was before
    the [delete]. *)
Theorem delete_issues_the_old_tree
        (jwt_sign : Z -> Z -> string -> string -> string) :
  let payload := RObj [("originIP", RStr "1.2.3.4");
                       ("user", RObj [("name", RStr "x"); ("tmp", RNum 1)])] in
  let h := VProxy [] [("originIP", VStr "1.2.3.4");
                      ("user", VProxy ["user"] [("name", VStr "x");
                                                ("tmp", VNum 1)]);
                      ("terminate", VFun)] in
  let st := {| clientSession := Some h; trace := [] |} in
  let out := ClientSession.delete jwt_sign Sample.this Sample.first_visit
                                  ["user"] "tmp" st in
  SessionObj.construct (Some payload) "1.2.3.4" = Ok h
  /\ fst out = Ok tt
  /\ issued (trace (snd out)) = [JSON.stringify (data_of h)]
  /\ JSON.stringify (data_of h) =
       "{" ++ JSON.quote "originIP" ++ ":" ++ JSON.quote "1.2.3.4" ++ ","
           ++ JSON.quote "user" ++ ":{" ++ JSON.quote "name" ++ ":"
           ++ JSON.quote "x" ++ "," ++ JSON.quote "tmp" ++ ":1}}".
Proof. repeat split. Qed.

(* ===================================================================== *)
(** * Wrapping *)

Lemma proxify_obj (ps : list (string * raw)) (path : list string) :
  DeepProxy.proxify (RObj ps) path =
    match DeepProxy.proxify_props path ps with
    | Throw e => Throw e
    | Ok ps' => Ok (VProxy path ps')
    end.
Proof. reflexivity. Qed.

Lemma proxify_props_cons (k : string) (v : raw) (rest : list (string * raw))
      (path : list string) :
  DeepProxy.proxify_props path ((k, v) :: rest) =
    match wrap v (path ++ [k]) with
    | Throw e => Throw e
    | Ok v' =>
        match DeepProxy.proxify_props path rest with
        | Throw e => Throw e
        | Ok rest' => Ok ((k, v') :: rest')
        end
    end.
Proof. reflexivity. Qed.

Lemma set_wrap (path : list string) (target : list (string * value))
      (key : string) (v : raw) :
  DeepProxy.set path target key v =
    match wrap v (path ++ [key]) with
    | Throw e => (target, Throw e)
    | Ok v' => (putProp key v' target, Ok (DeepProxy.HookSet (path ++ [key])))
    end.
Proof. reflexivity. Qed.

(** Wrapping a value without [null] returns. *)
Lemma wrap_total (v : raw) :
  forall path, null_free v = true -> exists v', wrap v path = Ok v'.
Proof.
  induction v as [| | | | |ps IH] using raw_tree_ind; intros path Hnf;
    try discriminate; try (eexists; reflexivity).
  unfold wrap. cbn [raw_typeof_object]. rewrite proxify_obj.
  change (null_free (RObj ps)) with (null_free_props ps) in Hnf.
  assert (H : exists ps', DeepProxy.proxify_props path ps = Ok ps').
  { induction IH as [|[k w] rest Hw _ IHrest]; [eexists; reflexivity|].
    cbn [null_free_props] in Hnf. apply andb_prop in Hnf as [Hw_nf Hrest_nf].
    rewrite proxify_props_cons.
    cbn [snd] in Hw. destruct (Hw (path ++ [k])%list Hw_nf) as [w' ->].
    destruct (IHrest Hrest_nf) as [rest' ->].
    eexists; reflexivity. }
  destruct H as [ps' ->]. eexists; reflexivity.
Qed.

(** What wrapping returns is wrapped at the path it was given. *)
Lemma wrap_wrapped (v : raw) :
  forall path v', wrap v path = Ok v' -> wrapped path v'.
Proof.
  induction v as [| | | | |ps IH] using raw_tree_ind; intros path v' H;
    try (injection H as <-; exact I); try discriminate.
  unfold wrap in H. cbn [raw_typeof_object] in H. rewrite proxify_obj in H.
  destruct (DeepProxy.proxify_props path ps) as [ps'|e] eqn:Hps;
    [|discriminate].
  injection H as <-.
  change (path = path /\ wrapped_props path ps'). split; [reflexivity|].
  revert ps' Hps.
  induction IH as [|[k w] rest Hw _ IHrest]; intros ps' Hps.
  - injection Hps as <-. exact I.
  - rewrite proxify_props_cons in Hps.
    destruct (wrap w (path ++ [k])) as [w'|e] eqn:Hwrap; [|discriminate].
    destruct (DeepProxy.proxify_props path rest) as [rest'|e] eqn:Hrest;
      [|discriminate].
    injection Hps as <-. split.
    + exact (Hw _ _ Hwrap).
    + exact (IHrest _ eq_refl).
Qed.

Lemma wrapped_props_get (pos : list string) (k : string) (c : value) :
  forall ps, wrapped_props pos ps -> getProp k ps = Some c ->
             wrapped (pos ++ [k]) c.
Proof.
  induction ps as [|[k' w] ps IH]; simpl; [discriminate|].
  intros [Hw Hrest]. destruct (String.eqb_spec k k') as [->|Hne].
  - intros H. injection H as <-. exact Hw.
  - exact (IH Hrest).
Qed.

Lemma wrapped_props_put (pos : list string) (k : string) (c : value) :
  forall ps, wrapped_props pos ps -> wrapped (pos ++ [k]) c ->
             wrapped_props pos (putProp k c ps).
Proof.
  induction ps as [|[k' w] ps IH]; simpl; intros Hps Hc.
  - split; [exact Hc|exact I].
  - destruct Hps as [Hw Hrest]. destruct (String.eqb_spec k k') as [->|Hne].
    + split; assumption.
    + split; [exact Hw|exact (IH Hrest Hc)].
Qed.

(** In a wrapped tree, an object is a proxy that closes over its place. *)
Lemma wrapped_object (pos : list string) (x : value) :
  wrapped pos x -> typeof_object x = true -> exists ps, x = VProxy pos ps.
Proof.
  destruct x; simpl; try discriminate; try contradiction.
  intros [-> _] _. eexists; reflexivity.
Qed.

Lemma wrapped_node_at :
  forall (nav pos : list string) (h x : value),
    wrapped pos h -> node_at nav h = Some x -> wrapped (pos ++ nav) x.
Proof.
  induction nav as [|k nav IH]; simpl; intros pos h x Hh Hnode.
  - injection Hnode as <-. rewrite app_nil_r. exact Hh.
  - destruct (get h k) as [c|] eqn:Hget; [|discriminate].
    replace (pos ++ k :: nav)%list with ((pos ++ [k]) ++ nav)%list
      by (rewrite <- app_assoc; reflexivity).
    apply (IH _ c x); [|exact Hnode].
    destruct h; simpl in Hget; try discriminate; try contradiction.
    destruct Hh as [-> Hps]. exact (wrapped_props_get _ _ _ _ Hps Hget).
Qed.

Lemma get_with_prop (x c c' : value) (k : string) :
  get x k = Some c -> get (with_prop x k c') k = Some c'.
Proof.
  destruct x; simpl; try discriminate; intros _; apply getProp_putProp.
Qed.

(** The walk reaches the node, [f] is applied to it, and the tree then
    holds what [f] made of it. *)
Lemma update_at_node {A} (f : value -> value * result A) :
  forall (nav : list string) (h x : value),
    node_at nav h = Some x ->
    snd (update_at nav f h) = snd (f x)
    /\ node_at nav (fst (update_at nav f h)) = Some (fst (f x)).
Proof.
  induction nav as [|k nav IH]; simpl; intros h x Hnode.
  - injection Hnode as <-. split; reflexivity.
  - destruct (get h k) as [c|] eqn:Hget; [|discriminate].
    destruct (IH c x Hnode) as [Hr Hn].
    destruct (update_at nav f c) as [c' r]. simpl in *.
    rewrite (get_with_prop h c c' k Hget). split; assumption.
Qed.

Lemma update_at_wrapped {A} (f : value -> value * result A) :
  forall (nav pos : list string) (h x : value),
    wrapped pos h -> node_at nav h = Some x ->
    wrapped (pos ++ nav) (fst (f x)) ->
    wrapped pos (fst (update_at nav f h)).
Proof.
  induction nav as [|k nav IH]; simpl; intros pos h x Hh Hnode Hfx.
  - injection Hnode as <-. rewrite app_nil_r in Hfx. exact Hfx.
  - destruct (get h k) as [c|] eqn:Hget; [|discriminate].
    replace (pos ++ k :: nav)%list with ((pos ++ [k]) ++ nav)%list in Hfx
      by (rewrite <- app_assoc; reflexivity).
    destruct h; simpl in Hget; try discriminate; try contradiction.
    destruct Hh as [-> Hps].
    pose proof (wrapped_props_get _ _ _ _ Hps Hget) as Hc.
    pose proof (IH _ c x Hc Hnode Hfx) as Hc'.
    destruct (update_at nav f c) as [c' r]. simpl in *.
    split; [reflexivity|]. exact (wrapped_props_put _ _ _ _ Hps Hc').
Qed.

(* ===================================================================== *)
(** * Mutations of a session *)

(** A session as the constructor returns it is wrapped, from the root. *)
Lemma construct_wrapped (prevPayload : option raw) (ip : string) (h : value) :
  SessionObj.construct prevPayload ip = Ok h -> wrapped [] h.
Proof.
  unfold SessionObj.construct.
  destruct prevPayload as [[]|]; try discriminate; intros H.
  - exact (wrap_wrapped (RObj (putProp "terminate" RFun props)) [] h H).
  - exact (wrap_wrapped
             (RObj (putProp "terminate" RFun
                      (putProp "originIP" (RStr ip) []))) [] h H).
Qed.

(** The constructor returns on every payload that is an object without
    [null], and on no payload at all. *)
Lemma construct_total (prevPayload : option raw) (ip : string) :
  match prevPayload with
  | Some (RObj ps) => null_free (RObj ps) = true
  | Some _ => False
  | None => True
  end ->
  exists h, SessionObj.construct prevPayload ip = Ok h.
Proof.
  unfold SessionObj.construct.
  destruct prevPayload as [[]|]; try contradiction.
  - intros Hnf. apply (wrap_total (RObj (putProp "terminate" RFun props))).
    change (null_free_props (putProp "terminate" RFun props) = true).
    change (null_free_props props = true) in Hnf.
    induction props as [|[k w] ps IH]; [reflexivity|].
    cbn [null_free_props] in Hnf. apply andb_prop in Hnf as [Hw Hps].
    cbn [putProp]. destruct (String.eqb "terminate" k); cbn [null_free_props].
    + rewrite Hps. reflexivity.
    + rewrite Hw, (IH Hps). reflexivity.
  - intros _. eexists; reflexivity.
Qed.

(** In a wrapped session the walk to an object ends on a proxy whose path
    is the walk: the path handed to the hooks is the one the caller
    wrote. *)
Lemma tracked_node (nav : list string) (h x : value) :
  wrapped [] h -> node_at nav h = Some x -> typeof_object x = true ->
  exists target, x = VProxy nav target.
Proof.
  intros Hh Hnode Hobj.
  exact (wrapped_object nav x (wrapped_node_at nav [] h x Hh Hnode) Hobj).
Qed.

(** A set through a proxy that the guard lets pass: the value is stored,
    wrapped, and the issuance callback is called once, with the
    serialization of the whole root as the store left it; the cookie
    follows. *)
Lemma assign_issues_once
      (jwt_sign : Z -> Z -> string -> string -> string)
      (this : options) (req : request)
      (nav : list string) (key : string) (v : raw) (st : state)
      (h : value) (path : list string) (target : list (string * value))
      (v' : value) :
  clientSession st = Some h ->
  node_at nav h = Some (VProxy path target) ->
  wrap v (path ++ [key]) = Ok v' ->
  SessionObj.guard (path ++ [key]) = None ->
  let h' := fst (update_at nav (store key v) h) in
  ClientSession.assign jwt_sign this req nav key v st =
    (Ok tt,
     {| clientSession := Some h';
        trace := trace st ++
          [Issue (JSON.stringify (data_of h'));
           Cookie "accessToken"
                  (jwt_sign (Date_now req)
                            (Date_now req / 1000 + expiresIn this)
                            (JSON.stringify (data_of h')) (secret this))
                  (Date_now req + expiresIn this) true] |})
  /\ node_at nav h' = Some (VProxy path (putProp key v' target)).
Proof.
  intros Hcur Hnode Hwrap Hguard h'. subst h'.
  unfold ClientSession.assign, SessionObj.assign. rewrite Hcur.
  destruct (update_at_node (store key v) nav h _ Hnode) as [Hr Hn].
  unfold store in Hr at 2, Hn at 2. rewrite set_wrap, Hwrap in Hr, Hn.
  destruct (update_at nav (store key v) h) as [h' r]. cbn [fst snd] in *.
  subst r. split; [|exact Hn].
  unfold SessionObj.run_hook, SessionObj.set. rewrite Hguard.
  unfold SessionObj.issue, ClientSession.issueToken,
    ClientSession.updateCookie, bind, emit. cbn [clientSession trace].
  rewrite <- app_assoc. reflexivity.
Qed.

(** The same in a wrapped session, for a value without [null] stored in
    any object of the tree under a path whose first segment is not
    reserved: one issuance, and the session is wrapped afterwards. *)
Lemma tracked_assign_issues_once
      (jwt_sign : Z -> Z -> string -> string -> string)
      (this : options) (req : request)
      (nav : list string) (key : string) (v : raw) (st : state)
      (h x : value) :
  clientSession st = Some h ->
  wrapped [] h ->
  node_at nav h = Some x ->
  typeof_object x = true ->
  null_free v = true ->
  SessionObj.guard (nav ++ [key]) = None ->
  exists h',
    fst (ClientSession.assign jwt_sign this req nav key v st) = Ok tt
    /\ clientSession (snd (ClientSession.assign jwt_sign this req nav key v
                             st)) = Some h'
    /\ issued (trace (snd (ClientSession.assign jwt_sign this req nav key v
                             st)))
       = (issued (trace st) ++ [JSON.stringify (data_of h')])%list
    /\ wrapped [] h'.
Proof.
  intros Hcur Hh Hnode Hobj Hnf Hguard.
  destruct (tracked_node nav h x Hh Hnode Hobj) as [target ->].
  destruct (wrap_total v (nav ++ [key]) Hnf) as [v' Hwrap].
  destruct (assign_issues_once jwt_sign this req nav key v st h nav target v'
              Hcur Hnode Hwrap Hguard) as [Hrun Hn].
  exists (fst (update_at nav (store key v) h)).
  rewrite Hrun. cbn [fst snd clientSession trace].
  split; [reflexivity|]. split; [reflexivity|]. split.
  - rewrite issued_app. reflexivity.
  - apply (update_at_wrapped (store key v) nav [] h _ Hh Hnode).
    cbn [app]. unfold store. rewrite set_wrap, Hwrap. cbn [fst].
    split; [reflexivity|].
    apply wrapped_props_put.
    + pose proof (wrapped_node_at nav [] h _ Hh Hnode) as Hx.
      destruct Hx as [_ Hps]. exact Hps.
    + exact (wrap_wrapped v _ v' Hwrap).
Qed.

Lemma proxify_props_get (path : list string) (k : string) (v : raw) :
  forall ps ps',
    DeepProxy.proxify_props path ps = Ok ps' ->
    getProp k ps = Some v ->
    exists v', wrap v (path ++ [k]) = Ok v' /\ getProp k ps' = Some v'.
Proof.
  induction ps as [|[k' w] ps IH]; intros ps' Hps Hget; [discriminate|].
  rewrite proxify_props_cons in Hps.
  destruct (wrap w (path ++ [k'])) as [w'|e] eqn:Hw; [|discriminate].
  destruct (DeepProxy.proxify_props path ps) as [rest'|e] eqn:Hrest;
    [|discriminate].
  injection Hps as <-. simpl in Hget |- *.
  destruct (String.eqb_spec k k') as [->|Hne].
  - injection Hget as <-. exists w'. split; [exact Hw|reflexivity].
  - exact (IH rest' eq_refl Hget).
Qed.

(** Every session that the constructor returns holds the [terminate]
    closure. *)
Lemma construct_has_terminate (prevPayload : option raw) (ip : string)
      (h : value) :
  SessionObj.construct prevPayload ip = Ok h ->
  get h "terminate" = Some VFun.
Proof.
  unfold SessionObj.construct.
  destruct prevPayload as [[]|]; try discriminate.
  - rewrite proxify_obj.
    destruct (DeepProxy.proxify_props [] (putProp "terminate" RFun props))
      as [ps'|e] eqn:Hps; [|discriminate].
    intros H. injection H as <-.
    destruct (proxify_props_get [] "terminate" RFun _ ps' Hps
                (getProp_putProp "terminate" RFun props))
      as [v' [Hwrap Hget]].
    injection Hwrap as <-. exact Hget.
  - intros H. injection H as <-. reflexivity.
Qed.

(** A set or a delete through a proxy under a path that the guard turns
    down ends in a throw, and the trace is as before: no issuance. *)
Lemma reserved_mutation_is_rejected
      (jwt_sign : Z -> Z -> string -> string -> string)
      (this : options) (req : request)
      (nav : list string) (key : string) (v : raw) (st : state)
      (h : value) (path : list string) (target : list (string * value))
      (k0 : string) :
  clientSession st = Some h ->
  node_at nav h = Some (VProxy path target) ->
  SessionObj.guard (path ++ [key]) = Some k0 ->
  (is_ok (fst (ClientSession.assign jwt_sign this req nav key v st)) = false
   /\ trace (snd (ClientSession.assign jwt_sign this req nav key v st))
      = trace st)
  /\
  (is_ok (fst (ClientSession.delete jwt_sign this req nav key st)) = false
   /\ trace (snd (ClientSession.delete jwt_sign this req nav key st))
      = trace st).
Proof.
  intros Hcur Hnode Hguard. split.
  - unfold ClientSession.assign, SessionObj.assign. rewrite Hcur.
    destruct (update_at_node (store key v) nav h _ Hnode) as [Hr _].
    unfold store in Hr at 2. rewrite set_wrap in Hr.
    destruct (update_at nav (store key v) h) as [h' r]. cbn [snd] in Hr.
    destruct (wrap v (path ++ [key])) as [v'|e]; cbn [snd] in Hr; subst r.
    + unfold SessionObj.run_hook, SessionObj.set. rewrite Hguard.
      split; reflexivity.
    + split; reflexivity.
  - unfold ClientSession.delete, SessionObj.delete. rewrite Hcur.
    destruct (update_at_node (remove key) nav h _ Hnode) as [Hr _].
    unfold remove in Hr at 2. unfold DeepProxy.deleteProperty in Hr.
    destruct (update_at nav (remove key) h) as [h' r]. cbn [snd] in Hr.
    destruct (getProp key target) as [w|].
    + destruct (DeepProxy.unproxy w) as [w' [err|]].
      * cbn [snd] in Hr. subst r. split; reflexivity.
      * unfold key_in, hasProp in Hr. rewrite getProp_putProp in Hr.
        cbn [snd orb] in Hr. subst r.
        unfold SessionObj.run_hook, SessionObj.deleteProperty.
        rewrite Hguard. split; reflexivity.
    + destruct (inherited key); cbn [snd] in Hr; subst r.
      * unfold SessionObj.run_hook, SessionObj.deleteProperty.
        rewrite Hguard. split; reflexivity.
      * split; reflexivity.
Qed.

(** Yet a set of a reserved key of the root has stored its value by the
    time the hook throws. *)
Lemma reserved_assign_is_stored
      (jwt_sign : Z -> Z -> string -> string -> string)
      (this : options) (req : request)
      (key : string) (v : raw) (v' : value) (st : state)
      (data : list (string * value)) :
  clientSession st = Some (VProxy [] data) ->
  key = "originIP" \/ key = "terminate" ->
  wrap v [key] = Ok v' ->
  ClientSession.assign jwt_sign this req [] key v st =
    (Throw (Error ("client-session: " ++ key ++
                   " is a reserved property and cannot be set.")),
     {| clientSession := Some (VProxy [] (putProp key v' data));
        trace := trace st |}).
Proof.
  intros Hcur Hres Hwrap.
  unfold ClientSession.assign, SessionObj.assign. rewrite Hcur.
  cbn [update_at]. unfold store. rewrite set_wrap. cbn [app].
  rewrite Hwrap. unfold SessionObj.run_hook, SessionObj.set.
  rewrite (guard_reserved key [] Hres). reflexivity.
Qed.

(** After [delete req.clientSession.user] the object is still in the tree,
    no longer behind a proxy: a later set inside it is stored and the
    issuance callback is not called. *)
Example set_after_delete_is_silent
        (jwt_sign : Z -> Z -> string -> string -> string) :
  let h := VProxy [] [("originIP", VStr "1.2.3.4");
                      ("user", VProxy ["user"] [("name", VStr "x")]);
                      ("terminate", VFun)] in
  let st := {| clientSession := Some h; trace := [] |} in
  let run :=
    (ClientSession.delete jwt_sign Sample.this Sample.first_visit [] "user" ;;
     ClientSession.assign jwt_sign Sample.this Sample.first_visit
                          ["user"] "name" (RStr "y")) st in
  fst run = Ok tt
  /\ clientSession (snd run) =
       Some (VProxy [] [("originIP", VStr "1.2.3.4");
                        ("user", VObj [("name", VStr "y")]);
                        ("terminate", VFun)])
  /\ List.length (issued (trace (snd run))) = 1%nat.
Proof. repeat split. Qed.


(* ===================================================================== *)
(** * Wrapping and unwrapping, in general *)

Lemma wrap_null (v : raw) :
  forall path, null_free v = false -> wrap v path = Throw TypeError.
Proof.
  induction v as [| | | | |ps IH] using raw_tree_ind; intros path Hnf;
    try discriminate; [reflexivity|].
  unfold wrap. cbn [raw_typeof_object]. rewrite proxify_obj.
  change (null_free (RObj ps)) with (null_free_props ps) in Hnf.
  assert (H : DeepProxy.proxify_props path ps = Throw TypeError).
  { induction IH as [|[k w] rest Hw _ IHrest]; [discriminate|].
    cbn [null_free_props] in Hnf. cbn [snd] in Hw.
    rewrite proxify_props_cons.
    destruct (null_free w) eqn:Hw_nf.
    - destruct (wrap_total w (path ++ [k])%list Hw_nf) as [w' ->].
      rewrite (IHrest Hnf). reflexivity.
    - rewrite (Hw (path ++ [k])%list eq_refl). reflexivity. }
  rewrite H. reflexivity.
Qed.

Lemma unproxy_non_object (v : value) :
  typeof_object v = false -> DeepProxy.unproxy v = (v, None).
Proof. destruct v; try discriminate; reflexivity. Qed.

(** Unwrapping what [proxify] made gives the plain tree back. *)
Lemma unproxy_wrap (v : raw) :
  forall path v', wrap v path = Ok v' ->
                  DeepProxy.unproxy v' = (inject v, None).
Proof.
  induction v as [| | | | |ps IH] using raw_tree_ind; intros path v' H;
    try (injection H as <-; reflexivity); try discriminate.
  unfold wrap in H. cbn [raw_typeof_object] in H. rewrite proxify_obj in H.
  destruct (DeepProxy.proxify_props path ps) as [ps'|e] eqn:Hps;
    [|discriminate].
  injection H as <-. rewrite unproxy_proxy.
  assert (Hloop : unproxy_props ps' =
                  (map (fun kv => (fst kv, inject (snd kv))) ps, None)).
  { revert ps' Hps.
    induction IH as [|[k w] rest Hw _ IHrest]; intros ps' Hps.
    - injection Hps as <-. reflexivity.
    - rewrite proxify_props_cons in Hps. cbn [snd] in Hw.
      destruct (wrap w (path ++ [k])) as [w'|e] eqn:Hwrap; [|discriminate].
      destruct (DeepProxy.proxify_props path rest) as [rest'|e] eqn:Hrest;
        [|discriminate].
      injection Hps as <-. cbn [unproxy_props map fst snd].
      pose proof (Hw _ _ Hwrap) as Hun. rewrite (IHrest rest' eq_refl).
      destruct (typeof_object w') eqn:Hobj.
      + rewrite Hun. reflexivity.
      + rewrite (unproxy_non_object w' Hobj) in Hun.
        injection Hun as ->. reflexivity. }
  rewrite Hloop. reflexivity.
Qed.

Lemma proxify_is_wrap (obj : raw) (path : list string) (v : value) :
  DeepProxy.proxify obj path = Ok v -> wrap obj path = Ok v.
Proof.
  destruct obj; try discriminate; intros H; exact H.
Qed.

(** X1.  In what [proxify(obj, path)] returns, every object is behind a
    proxy and no [null] is left: whatever walk from the result ends on a
    value whose [typeof] is ['object'] ends on a proxy, and the path its
    handler closes over is [path] followed by the walk. *)
Theorem proxify_wraps_every_object
        (obj : raw) (path : list string) (v : value) :
  DeepProxy.proxify obj path = Ok v ->
  forall (nav : list string) (x : value),
    node_at nav v = Some x -> typeof_object x = true ->
    exists target, x = VProxy (path ++ nav) target.
Proof.
  intros H nav x Hnode Hobj.
  pose proof (wrap_wrapped obj path v (proxify_is_wrap obj path v H)) as Hw.
  exact (wrapped_object _ x (wrapped_node_at nav path v x Hw Hnode) Hobj).
Qed.

Lemma proxify_wraps_every_object_witness :
  DeepProxy.proxify
    (RObj [("user", RObj [("name", RStr "x"); ("tags", RObj [])])]) ["s"]
  = Ok (VProxy ["s"]
          [("user", VProxy ["s"; "user"]
                      [("name", VStr "x");
                       ("tags", VProxy ["s"; "user"; "tags"] [])])]) /\
  exists target,
    VProxy ["s"; "user"; "tags"] [] = VProxy (["s"] ++ ["user"; "tags"]) target.
Proof.
  split; [reflexivity|].
  exact (proxify_wraps_every_object
           (RObj [("user", RObj [("name", RStr "x"); ("tags", RObj [])])])
           ["s"] _ eq_refl ["user"; "tags"]
           (VProxy ["s"; "user"; "tags"] []) eq_refl eq_refl).
Defined.

(** X2.  [proxify] on an object returns when no [null] is anywhere inside
    the object, and throws a [TypeError] when one is, at whatever depth. *)
Theorem proxify_throws_exactly_on_null
        (ps : list (string * raw)) (path : list string) :
  (null_free (RObj ps) = true ->
   exists v, DeepProxy.proxify (RObj ps) path = Ok v)
  /\
  (null_free (RObj ps) = false ->
   DeepProxy.proxify (RObj ps) path = Throw TypeError).
Proof.
  split; intros H.
  - exact (wrap_total (RObj ps) path H).
  - exact (wrap_null (RObj ps) path H).
Qed.

Lemma proxify_throws_exactly_on_null_witness :
  (exists v, DeepProxy.proxify (RObj [("a", RObj [("b", RNum 1)])]) [] = Ok v)
  /\ DeepProxy.proxify (RObj [("a", RObj [("b", RNull)])]) []
     = Throw TypeError.
Proof.
  split.
  - apply (proj1 (proxify_throws_exactly_on_null
                    [("a", RObj [("b", RNum 1)])] [])). reflexivity.
  - apply (proj2 (proxify_throws_exactly_on_null
                    [("a", RObj [("b", RNull)])] [])). reflexivity.
Defined.

(** X3.  [unproxy] undoes [proxify]: on a slot that holds what
    [proxify(obj, path)] returned it finishes without a throw and leaves
    the plain object [obj] in the slot, no proxy at any depth. *)
Theorem unproxy_undoes_proxify
        (obj : raw) (path : list string) (v : value) :
  DeepProxy.proxify obj path = Ok v ->
  DeepProxy.unproxy v = (inject obj, None).
Proof.
  intros H. exact (unproxy_wrap obj path v (proxify_is_wrap obj path v H)).
Qed.

Lemma unproxy_undoes_proxify_witness :
  DeepProxy.proxify (RObj [("a", RObj [("b", RNum 1)])]) []
  = Ok (VProxy [] [("a", VProxy ["a"] [("b", VNum 1)])]) /\
  DeepProxy.unproxy (VProxy [] [("a", VProxy ["a"] [("b", VNum 1)])])
  = (inject (RObj [("a", RObj [("b", RNum 1)])]), None).
Proof.
  split; [reflexivity|].
  exact (unproxy_undoes_proxify (RObj [("a", RObj [("b", RNum 1)])]) []
           _ eq_refl).
Defined.

(** X4.  On a slot that holds a plain value with no proxy and no [null]
    inside, [unproxy] changes nothing and does not throw. *)
Theorem unproxy_leaves_a_plain_tree (v : raw) :
  null_free v = true ->
  DeepProxy.unproxy (inject v) = (inject v, None).
Proof.
  induction v as [| | | | |ps IH] using raw_tree_ind; intros Hnf;
    try reflexivity; try discriminate.
  change (null_free (RObj ps)) with (null_free_props ps) in Hnf.
  cbn [inject]. rewrite unproxy_obj.
  assert (Hloop : unproxy_props (map (fun kv => (fst kv, inject (snd kv))) ps)
                  = (map (fun kv => (fst kv, inject (snd kv))) ps, None)).
  { induction IH as [|[k w] rest Hw _ IHrest]; [reflexivity|].
    cbn [null_free_props] in Hnf. apply andb_prop in Hnf as [Hw_nf Hrest_nf].
    cbn [snd] in Hw. cbn [unproxy_props map fst snd].
    rewrite (IHrest Hrest_nf), (Hw Hw_nf).
    destruct (typeof_object (inject w)); reflexivity. }
  rewrite Hloop. reflexivity.
Qed.

Lemma unproxy_leaves_a_plain_tree_witness :
  null_free (RObj [("a", RObj [("b", RStr "x")]); ("n", RNum 2)]) = true /\
  DeepProxy.unproxy
    (inject (RObj [("a", RObj [("b", RStr "x")]); ("n", RNum 2)]))
  = (inject (RObj [("a", RObj [("b", RStr "x")]); ("n", RNum 2)]), None).
Proof.
  split; [reflexivity|].
  exact (unproxy_leaves_a_plain_tree
           (RObj [("a", RObj [("b", RStr "x")]); ("n", RNum 2)]) eq_refl).
Defined.

(** X5.  Wrapping does not show in the serialization: what
    [proxify(obj, path)] returns serializes to the same string as [obj]. *)
Theorem proxify_keeps_the_serialization
        (obj : raw) (path : list string) (v : value) :
  DeepProxy.proxify obj path = Ok v ->
  JSON.serialize v = JSON.serialize (inject obj).
Proof.
  intros H. rewrite <- (unproxy_serialize v).
  rewrite (unproxy_wrap obj path v (proxify_is_wrap obj path v H)).
  reflexivity.
Qed.

Lemma proxify_keeps_the_serialization_witness :
  DeepProxy.proxify (RObj [("a", RObj [("b", RNum 1)])]) []
  = Ok (VProxy [] [("a", VProxy ["a"] [("b", VNum 1)])]) /\
  JSON.serialize (VProxy [] [("a", VProxy ["a"] [("b", VNum 1)])])
  = JSON.serialize (inject (RObj [("a", RObj [("b", RNum 1)])])).
Proof.
  split; [reflexivity|].
  exact (proxify_keeps_the_serialization
           (RObj [("a", RObj [("b", RNum 1)])]) [] _ eq_refl).
Defined.

(* ===================================================================== *)
(** * Sets and deletes, in general *)

Lemma getProp_putProp_other {V} (k k' : string) (c : V)
      (ps : list (string * V)) :
  k <> k' -> getProp k (putProp k' c ps) = getProp k ps.
Proof.
  intros Hne. induction ps as [|[k2 w] ps IH]; simpl.
  - apply String.eqb_neq in Hne. rewrite Hne. reflexivity.
  - destruct (String.eqb_spec k' k2) as [->|Hne2]; simpl.
    + apply String.eqb_neq in Hne. rewrite Hne. reflexivity.
    + destruct (String.eqb k k2); [reflexivity|exact IH].
Qed.

Lemma node_at_app (k : string) :
  forall (nav : list string) (h : value),
    node_at (nav ++ [k]) h =
      match node_at nav h with
      | Some x => get x k
      | None => None
      end.
Proof.
  induction nav as [|k' nav IH]; intros h; simpl.
  - destruct (get h k); reflexivity.
  - destruct (get h k') as [c|]; [apply IH|reflexivity].
Qed.

Lemma serialize_with_prop (h c c' : value) (k : string) :
  get h k = Some c -> JSON.serialize c' = JSON.serialize c ->
  JSON.stringify (data_of (with_prop h k c')) = JSON.stringify (data_of h).
Proof.
  intros Hget Hser. unfold JSON.stringify.
  destruct h; simpl in Hget; try discriminate; cbn [with_prop data_of];
    rewrite (members_putProp k c c' _ Hget Hser); reflexivity.
Qed.

(** A step that does not change what its node serializes to does not
    change what any node above serializes to. *)
Lemma update_at_serialize {A} (f : value -> value * result A) :
  forall (nav : list string) (h x : value),
    node_at nav h = Some x ->
    JSON.serialize (fst (f x)) = JSON.serialize x ->
    JSON.serialize (fst (update_at nav f h)) = JSON.serialize h.
Proof.
  induction nav as [|k nav IH]; simpl; intros h x Hnode Hser.
  - injection Hnode as <-. exact Hser.
  - destruct (get h k) as [c|] eqn:Hget; [|discriminate].
    pose proof (IH c x Hnode Hser) as Hc.
    destruct (update_at nav f c) as [c' r]. cbn [fst] in *.
    pose proof (serialize_with_prop h c c' k Hget Hc) as Hd.
    destruct h; simpl in Hget; try discriminate; cbn [with_prop data_of] in *.
    + rewrite !serialize_obj, Hd. reflexivity.
    + rewrite !serialize_proxy, Hd. reflexivity.
Qed.

Lemma update_at_stringify {A} (f : value -> value * result A)
      (nav : list string) (h : value) (path : list string)
      (target target' : list (string * value)) (r : result A) :
  node_at nav h = Some (VProxy path target) ->
  f (VProxy path target) = (VProxy path target', r) ->
  JSON.stringify target' = JSON.stringify target ->
  JSON.stringify (data_of (fst (update_at nav f h)))
  = JSON.stringify (data_of h).
Proof.
  intros Hnode Hf Hser.
  assert (Hx : JSON.serialize (fst (f (VProxy path target)))
               = JSON.serialize (VProxy path target))
    by (rewrite Hf; cbn [fst]; rewrite !serialize_proxy, Hser; reflexivity).
  destruct nav as [|k nav]; simpl in *.
  - injection Hnode as ->. rewrite Hf. cbn [fst data_of]. exact Hser.
  - destruct (get h k) as [c|] eqn:Hget; [|discriminate].
    pose proof (update_at_serialize f nav c _ Hnode Hx) as Hc.
    destruct (update_at nav f c) as [c' r']. cbn [fst] in *.
    exact (serialize_with_prop h c c' k Hget Hc).
Qed.

(** X6.  A delete of a key that the object neither has nor inherits from
    [Object.prototype]: the trap returns [false] without unwrapping
    anything or calling the hook, so the [delete] of the caller throws a
    [TypeError] (strict code), nothing is issued and the state of the
    request is as before. *)
Theorem delete_of_a_missing_key
        (jwt_sign : Z -> Z -> string -> string -> string)
        (this : options) (req : request)
        (nav : list string) (key : string) (st : state)
        (h : value) (path : list string) (target : list (string * value)) :
  clientSession st = Some h ->
  node_at nav h = Some (VProxy path target) ->
  getProp key target = None ->
  inherited key = false ->
  DeepProxy.deleteProperty path target key = (target, Ok (false, None))
  /\ ClientSession.delete jwt_sign this req nav key st = (Throw TypeError, st).
Proof.
  intros Hcur Hnode Hget Hown.
  assert (Htrap : DeepProxy.deleteProperty path target key
                  = (target, Ok (false, None)))
    by (unfold DeepProxy.deleteProperty; rewrite Hget, Hown; reflexivity).
  split; [exact Htrap|].
  unfold ClientSession.delete, SessionObj.delete. rewrite Hcur.
  assert (Hstep : remove key (VProxy path target)
                  = (VProxy path target, Throw TypeError))
    by (unfold remove; rewrite Htrap; reflexivity).
  rewrite (update_at_fixed (remove key) (Throw TypeError) nav h _ Hnode Hstep).
  rewrite <- Hcur. rewrite state_eta. reflexivity.
Qed.

Lemma delete_of_a_missing_key_witness :
  clientSession Sample.fresh =
    Some (VProxy [] [("originIP", VStr "1.2.3.4"); ("terminate", VFun)]) /\
  getProp "cart" [("originIP", VStr "1.2.3.4"); ("terminate", VFun)] = None /\
  inherited "cart" = false /\
  DeepProxy.deleteProperty
    [] [("originIP", VStr "1.2.3.4"); ("terminate", VFun)] "cart"
  = ([("originIP", VStr "1.2.3.4"); ("terminate", VFun)], Ok (false, None)) /\
  ClientSession.delete Sample.sign Sample.this Sample.first_visit [] "cart"
                       Sample.fresh
  = (Throw TypeError, Sample.fresh).
Proof.
  split; [reflexivity|]. split; [reflexivity|]. split; [reflexivity|].
  exact (delete_of_a_missing_key Sample.sign Sample.this Sample.first_visit
           [] "cart" Sample.fresh _ [] _ eq_refl eq_refl eq_refl eq_refl).
Defined.

(** X7.  In a wrapped session whose tree is plain, a set of a plain
    value without [null] under an ordinary key on any object of the tree,
    under a path whose first segment is not reserved: the set returns; the
    issuance callback is called once, with the serialization of the whole
    root after the store, and the cookie follows; reading the key back
    gives the value, wrapped; the other keys of the object read as before;
    and the session is wrapped again. *)
Theorem accepted_set_is_stored_and_issued
        (jwt_sign : Z -> Z -> string -> string -> string)
        (this : options) (req : request)
        (nav : list string) (key : string) (v : raw) (st : state)
        (h x : value) :
  clientSession st = Some h ->
  wrapped [] h ->
  plain h = true ->
  node_at nav h = Some x ->
  typeof_object x = true ->
  ordinary_key key = true ->
  raw_plain v = true ->
  null_free v = true ->
  SessionObj.guard (nav ++ [key]) = None ->
  exists h' v',
    ClientSession.assign jwt_sign this req nav key v st =
      (Ok tt,
       {| clientSession := Some h';
          trace := trace st ++
            [Issue (JSON.stringify (data_of h'));
             Cookie "accessToken"
                    (jwt_sign (Date_now req)
                              (Date_now req / 1000 + expiresIn this)
                              (JSON.stringify (data_of h')) (secret this))
                    (Date_now req + expiresIn this) true] |})
    /\ node_at (nav ++ [key]) h' = Some v'
    /\ DeepProxy.unproxy v' = (inject v, None)
    /\ (forall k, k <> key ->
                  node_at (nav ++ [k]) h' = node_at (nav ++ [k]) h)
    /\ wrapped [] h'.
Proof.
  intros Hcur Hh _ Hnode Hobj _ _ Hnf Hguard.
  destruct (tracked_node nav h x Hh Hnode Hobj) as [target ->].
  destruct (wrap_total v (nav ++ [key]) Hnf) as [v' Hwrap].
  destruct (assign_issues_once jwt_sign this req nav key v st h nav target v'
              Hcur Hnode Hwrap Hguard) as [Hrun Hn].
  exists (fst (update_at nav (store key v) h)), v'.
  split; [exact Hrun|]. split; [|split; [|split]].
  - rewrite node_at_app, Hn. apply getProp_putProp.
  - exact (unproxy_wrap v _ v' Hwrap).
  - intros k Hne. rewrite !node_at_app, Hn, Hnode.
    apply getProp_putProp_other. exact Hne.
  - apply (update_at_wrapped (store key v) nav [] h _ Hh Hnode).
    cbn [app]. unfold store. rewrite set_wrap, Hwrap. cbn [fst].
    split; [reflexivity|].
    apply wrapped_props_put.
    + pose proof (wrapped_node_at nav [] h _ Hh Hnode) as Hx.
      destruct Hx as [_ Hps]. exact Hps.
    + exact (wrap_wrapped v _ v' Hwrap).
Qed.

Lemma accepted_set_is_stored_and_issued_witness :
  let h := VProxy [] [("originIP", VStr "1.2.3.4");
                      ("user", VProxy ["user"] [("name", VStr "x")]);
                      ("terminate", VFun)] in
  let st := {| clientSession := Some h; trace := [Next] |} in
  wrapped [] h /\
  plain h = true /\
  node_at ["user"] h = Some (VProxy ["user"] [("name", VStr "x")]) /\
  ordinary_key "prefs" = true /\
  raw_plain (RObj [("dark", RBool true)]) = true /\
  null_free (RObj [("dark", RBool true)]) = true /\
  SessionObj.guard (["user"] ++ ["prefs"]) = None /\
  exists h' v',
    ClientSession.assign Sample.sign Sample.this Sample.first_visit
                         ["user"] "prefs" (RObj [("dark", RBool true)]) st =
      (Ok tt,
       {| clientSession := Some h';
          trace := trace st ++
            [Issue (JSON.stringify (data_of h'));
             Cookie "accessToken"
                    (Sample.sign (Date_now Sample.first_visit)
                       (Date_now Sample.first_visit / 1000
                        + expiresIn Sample.this)
                       (JSON.stringify (data_of h')) (secret Sample.this))
                    (Date_now Sample.first_visit + expiresIn Sample.this)
                    true] |})
    /\ node_at (["user"] ++ ["prefs"]) h' = Some v'
    /\ DeepProxy.unproxy v' = (inject (RObj [("dark", RBool true)]), None)
    /\ (forall k, k <> "prefs" ->
                  node_at (["user"] ++ [k]) h' = node_at (["user"] ++ [k]) h)
    /\ wrapped [] h'.
Proof.
  intros h st.
  assert (Hw : wrapped [] h) by (simpl; repeat split).
  split; [exact Hw|]. split; [reflexivity|]. split; [reflexivity|].
  split; [reflexivity|]. split; [reflexivity|]. split; [reflexivity|].
  split; [reflexivity|].
  exact (accepted_set_is_stored_and_issued Sample.sign Sample.this
           Sample.first_visit ["user"] "prefs" (RObj [("dark", RBool true)])
           st h (VProxy ["user"] [("name", VStr "x")])
           eq_refl Hw eq_refl eq_refl eq_refl eq_refl eq_refl eq_refl
           eq_refl).
Defined.

(** X8.  In a wrapped session, a set or a delete on any object of the tree
    under a path whose first segment is [originIP] or [terminate] ends in a
    throw, at whatever depth the object lies, and adds nothing to the
    trace: no issuance and no cookie. *)
Theorem reserved_path_throws_without_issuance
        (jwt_sign : Z -> Z -> string -> string -> string)
        (this : options) (req : request)
        (nav : list string) (key : string) (v : raw) (st : state)
        (h x : value) :
  clientSession st = Some h ->
  wrapped [] h ->
  node_at nav h = Some x ->
  typeof_object x = true ->
  first_segment (nav ++ [key]) = Some "originIP"
  \/ first_segment (nav ++ [key]) = Some "terminate" ->
  (is_ok (fst (ClientSession.assign jwt_sign this req nav key v st)) = false
   /\ trace (snd (ClientSession.assign jwt_sign this req nav key v st))
      = trace st)
  /\
  (is_ok (fst (ClientSession.delete jwt_sign this req nav key st)) = false
   /\ trace (snd (ClientSession.delete jwt_sign this req nav key st))
      = trace st).
Proof.
  intros Hcur Hh Hnode Hobj Hfirst.
  destruct (tracked_node nav h x Hh Hnode Hobj) as [target ->].
  assert (Hguard : exists k0, SessionObj.guard (nav ++ [key]) = Some k0).
  { destruct (nav ++ [key])%list as [|k0 rest]; simpl in Hfirst.
    - destruct Hfirst; discriminate.
    - exists k0. apply guard_reserved.
      destruct Hfirst as [H|H]; injection H as ->; auto. }
  destruct Hguard as [k0 Hguard].
  exact (reserved_mutation_is_rejected jwt_sign this req nav key v st h nav
           target k0 Hcur Hnode Hguard).
Qed.

Lemma reserved_path_throws_without_issuance_witness :
  let h := VProxy [] [("originIP", VProxy ["originIP"] [("v4", VStr "1.2.3.4")]);
                      ("terminate", VFun)] in
  let st := {| clientSession := Some h; trace := [Next] |} in
  wrapped [] h /\
  first_segment (["originIP"] ++ ["v6"]) = Some "originIP" /\
  (is_ok (fst (ClientSession.assign Sample.sign Sample.this
                 Sample.first_visit ["originIP"] "v6" (RStr "::1") st))
   = false
   /\ trace (snd (ClientSession.assign Sample.sign Sample.this
                    Sample.first_visit ["originIP"] "v6" (RStr "::1") st))
      = trace st)
  /\
  (is_ok (fst (ClientSession.delete Sample.sign Sample.this
                 Sample.first_visit ["originIP"] "v6" st)) = false
   /\ trace (snd (ClientSession.delete Sample.sign Sample.this
                    Sample.first_visit ["originIP"] "v6" st))
      = trace st).
Proof.
  intros h st.
  assert (Hw : wrapped [] h) by (simpl; repeat split).
  split; [exact Hw|]. split; [reflexivity|].
  exact (reserved_path_throws_without_issuance Sample.sign Sample.this
           Sample.first_visit ["originIP"] "v6" (RStr "::1") st h
           (VProxy ["originIP"] [("v4", VStr "1.2.3.4")])
           eq_refl Hw eq_refl eq_refl (or_introl eq_refl)).
Defined.

(** X9.  A delete of [originIP] or [terminate] on the root, when the
    property is there and holds a value that is no object (a string, a
    number, the closure): the hook throws the error that names the
    property, and the state of the request is as before. *)
Theorem reserved_delete_changes_nothing
        (jwt_sign : Z -> Z -> string -> string -> string)
        (this : options) (req : request)
        (key : string) (v : value) (st : state)
        (data : list (string * value)) :
  clientSession st = Some (VProxy [] data) ->
  key = "originIP" \/ key = "terminate" ->
  getProp key data = Some v ->
  typeof_object v = false ->
  ClientSession.delete jwt_sign this req [] key st =
    (Throw (Error ("client-sesion: " ++ key ++
                   " is a reserved property and cannot be deleted.")), st).
Proof.
  intros Hcur Hres Hget Hprim.
  unfold ClientSession.delete, SessionObj.delete. rewrite Hcur.
  cbn [update_at]. unfold remove, DeepProxy.deleteProperty.
  rewrite Hget, (unproxy_non_object v Hprim).
  rewrite (getProp_putProp_same key v data Hget).
  unfold key_in, hasProp. rewrite Hget. cbn [app orb].
  unfold SessionObj.run_hook, SessionObj.deleteProperty.
  rewrite (guard_reserved key [] Hres).
  unfold throw. rewrite <- Hcur, state_eta. reflexivity.
Qed.

Lemma reserved_delete_changes_nothing_witness :
  clientSession Sample.fresh =
    Some (VProxy [] [("originIP", VStr "1.2.3.4"); ("terminate", VFun)]) /\
  getProp "terminate" [("originIP", VStr "1.2.3.4"); ("terminate", VFun)]
  = Some VFun /\
  ClientSession.delete Sample.sign Sample.this Sample.first_visit
                       [] "terminate" Sample.fresh =
    (Throw (Error ("client-sesion: " ++ "terminate" ++
                   " is a reserved property and cannot be deleted.")),
     Sample.fresh).
Proof.
  split; [reflexivity|]. split; [reflexivity|].
  exact (reserved_delete_changes_nothing Sample.sign Sample.this
           Sample.first_visit "terminate" VFun Sample.fresh _
           eq_refl (or_intror eq_refl) eq_refl eq_refl).
Defined.

(** What a delete through a proxy does when the key is there and the
    guard lets it pass. *)
Lemma delete_through_proxy
        (jwt_sign : Z -> Z -> string -> string -> string)
        (this : options) (req : request)
        (nav : list string) (key : string) (st : state)
        (h : value) (path : list string) (target : list (string * value))
        (v : value) :
  clientSession st = Some h ->
  node_at nav h = Some (VProxy path target) ->
  getProp key target = Some v ->
  snd (DeepProxy.unproxy v) = None ->
  SessionObj.guard (path ++ [key]) = None ->
  exists h',
    ClientSession.delete jwt_sign this req nav key st =
      (Ok tt,
       {| clientSession := Some h';
          trace := trace st ++
            [Issue (JSON.stringify (data_of h));
             Cookie "accessToken"
                    (jwt_sign (Date_now req)
                              (Date_now req / 1000 + expiresIn this)
                              (JSON.stringify (data_of h)) (secret this))
                    (Date_now req + expiresIn this) true] |})
    /\ node_at (nav ++ [key]) h' = Some (fst (DeepProxy.unproxy v)).
Proof.
  intros Hcur Hnode Hget Hfine Hguard.
  pose proof (unproxy_serialize v) as Hser.
  destruct (DeepProxy.unproxy v) as [v' e] eqn:Hun. cbn [fst snd] in *.
  subst e.
  assert (Hstep : remove key (VProxy path target) =
                  (VProxy path (putProp key v' target),
                   Ok (Some (DeepProxy.HookDelete (path ++ [key]))))).
  { unfold remove, DeepProxy.deleteProperty. rewrite Hget, Hun.
    unfold key_in, hasProp. rewrite getProp_putProp. reflexivity. }
  assert (Hstr : JSON.stringify (putProp key v' target)
                 = JSON.stringify target)
    by (unfold JSON.stringify;
        rewrite (members_putProp key v v' target Hget Hser); reflexivity).
  pose proof (update_at_stringify (remove key) nav h path target _ _
                Hnode Hstep Hstr) as Hroot.
  destruct (update_at_node (remove key) nav h _ Hnode) as [Hr Hn].
  rewrite Hstep in Hr, Hn. cbn [fst snd] in Hr, Hn.
  exists (fst (update_at nav (remove key) h)). split.
  - unfold ClientSession.delete, SessionObj.delete. rewrite Hcur.
    destruct (update_at nav (remove key) h) as [h' r]. cbn [fst snd] in *.
    subst r. unfold SessionObj.run_hook, SessionObj.deleteProperty.
    rewrite Hguard, Hroot.
    unfold SessionObj.issue, ClientSession.issueToken,
      ClientSession.updateCookie, bind, emit. cbn [clientSession trace].
    rewrite <- app_assoc. reflexivity.
  - rewrite node_at_app, Hn. apply getProp_putProp.
Qed.

(** X10.  A delete, through a proxy, of a key that is there and that the
    guard lets pass (nothing under the key being [null]): the delete
    returns; the issuance callback is called once, with the serialization
    of the root as it was before the delete; and the key is still in its
    object afterwards, holding its value with the proxies taken off. *)
Theorem accepted_delete_keeps_the_key
        (jwt_sign : Z -> Z -> string -> string -> string)
        (this : options) (req : request)
        (nav : list string) (key : string) (st : state)
        (h : value) (path : list string) (target : list (string * value))
        (v : value) :
  clientSession st = Some h ->
  node_at nav h = Some (VProxy path target) ->
  getProp key target = Some v ->
  snd (DeepProxy.unproxy v) = None ->
  SessionObj.guard (path ++ [key]) = None ->
  exists h',
    ClientSession.delete jwt_sign this req nav key st =
      (Ok tt,
       {| clientSession := Some h';
          trace := trace st ++
            [Issue (JSON.stringify (data_of h));
             Cookie "accessToken"
                    (jwt_sign (Date_now req)
                              (Date_now req / 1000 + expiresIn this)
                              (JSON.stringify (data_of h)) (secret this))
                    (Date_now req + expiresIn this) true] |})
    /\ node_at (nav ++ [key]) h' = Some (fst (DeepProxy.unproxy v)).
Proof.
  exact (delete_through_proxy jwt_sign this req nav key st h path target v).
Qed.

Lemma accepted_delete_keeps_the_key_witness :
  let h := VProxy [] [("originIP", VStr "1.2.3.4");
                      ("cart", VProxy ["cart"] [("n", VNum 2)]);
                      ("terminate", VFun)] in
  let st := {| clientSession := Some h; trace := [Next] |} in
  getProp "cart" (data_of h) = Some (VProxy ["cart"] [("n", VNum 2)]) /\
  snd (DeepProxy.unproxy (VProxy ["cart"] [("n", VNum 2)])) = None /\
  SessionObj.guard ([] ++ ["cart"]) = None /\
  exists h',
    ClientSession.delete Sample.sign Sample.this Sample.first_visit
                         [] "cart" st =
      (Ok tt,
       {| clientSession := Some h';
          trace := trace st ++
            [Issue (JSON.stringify (data_of h));
             Cookie "accessToken"
                    (Sample.sign (Date_now Sample.first_visit)
                       (Date_now Sample.first_visit / 1000
                        + expiresIn Sample.this)
                       (JSON.stringify (data_of h)) (secret Sample.this))
                    (Date_now Sample.first_visit + expiresIn Sample.this)
                    true] |})
    /\ node_at ([] ++ ["cart"]) h'
       = Some (fst (DeepProxy.unproxy (VProxy ["cart"] [("n", VNum 2)]))).
Proof.
  intros h st.
  split; [reflexivity|]. split; [reflexivity|]. split; [reflexivity|].
  exact (accepted_delete_keeps_the_key Sample.sign Sample.this
           Sample.first_visit [] "cart" st h [] (data_of h)
           (VProxy ["cart"] [("n", VNum 2)])
           eq_refl eq_refl eq_refl eq_refl eq_refl).
Defined.




(* ===================================================================== *)
(** * Sequences of operations *)

Lemma root_assign
      (jwt_sign : Z -> Z -> string -> string -> string)
      (this : options) (req : request)
      (key : string) (v : raw) (v' : value) (st : state)
      (data : list (string * value)) :
  clientSession st = Some (VProxy [] data) ->
  SessionObj.guard [key] = None ->
  wrap v [key] = Ok v' ->
  ClientSession.assign jwt_sign this req [] key v st =
    (Ok tt,
     {| clientSession := Some (VProxy [] (putProp key v' data));
        trace := trace st ++
          [Issue (JSON.stringify (putProp key v' data));
           Cookie "accessToken"
                  (jwt_sign (Date_now req)
                            (Date_now req / 1000 + expiresIn this)
                            (JSON.stringify (putProp key v' data))
                            (secret this))
                  (Date_now req + expiresIn this) true] |}).
Proof.
  intros Hcur Hguard Hwrap.
  destruct (assign_issues_once jwt_sign this req [] key v st
              (VProxy [] data) [] data v' Hcur eq_refl Hwrap Hguard)
    as [Hrun _].
  cbn [update_at] in Hrun. unfold store in Hrun.
  rewrite set_wrap in Hrun. cbn [app] in Hrun. rewrite Hwrap in Hrun.
  exact Hrun.
Qed.

(** X12.  Two sets on the root of a plain tree, one after the other, of
    plain values under ordinary keys that are not reserved: the issuance
    callback is called twice; the first string is the serialization after
    the first store, the second one the serialization after both, which is
    the tree the session then holds. *)
Theorem two_sets_issue_twice
        (jwt_sign : Z -> Z -> string -> string -> string)
        (this : options) (req : request)
        (k1 k2 : string) (v1 v2 : raw) (v1' v2' : value) (st : state)
        (data : list (string * value)) :
  clientSession st = Some (VProxy [] data) ->
  plain (VProxy [] data) = true ->
  ordinary_key k1 = true ->
  ordinary_key k2 = true ->
  raw_plain v1 = true ->
  raw_plain v2 = true ->
  SessionObj.guard [k1] = None ->
  SessionObj.guard [k2] = None ->
  wrap v1 [k1] = Ok v1' ->
  wrap v2 [k2] = Ok v2' ->
  let out := (ClientSession.assign jwt_sign this req [] k1 v1 ;;
              ClientSession.assign jwt_sign this req [] k2 v2) st in
  fst out = Ok tt
  /\ clientSession (snd out)
     = Some (VProxy [] (putProp k2 v2' (putProp k1 v1' data)))
  /\ issued (trace (snd out))
     = (issued (trace st) ++
        [JSON.stringify (putProp k1 v1' data);
         JSON.stringify (putProp k2 v2' (putProp k1 v1' data))])%list.
Proof.
  intros Hcur _ _ _ _ _ Hg1 Hg2 Hw1 Hw2 out. subst out. unfold bind.
  rewrite (root_assign jwt_sign this req k1 v1 v1' st data Hcur Hg1 Hw1).
  erewrite (root_assign jwt_sign this req k2 v2 v2');
    [|reflexivity|exact Hg2|exact Hw2].
  cbn [fst snd clientSession trace].
  split; [reflexivity|]. split; [reflexivity|].
  rewrite !issued_app. cbn [issued]. rewrite <- app_assoc. reflexivity.
Qed.

Lemma two_sets_issue_twice_witness :
  clientSession Sample.fresh =
    Some (VProxy [] [("originIP", VStr "1.2.3.4"); ("terminate", VFun)]) /\
  plain (VProxy [] [("originIP", VStr "1.2.3.4"); ("terminate", VFun)])
  = true /\
  ordinary_key "counter" = true /\
  let out := (ClientSession.assign Sample.sign Sample.this Sample.first_visit
                                   [] "counter" (RNum 0) ;;
              ClientSession.assign Sample.sign Sample.this Sample.first_visit
                                   [] "counter" (RNum 1)) Sample.fresh in
  fst out = Ok tt
  /\ clientSession (snd out)
     = Some (VProxy [] (putProp "counter" (VNum 1)
                          (putProp "counter" (VNum 0)
                             [("originIP", VStr "1.2.3.4");
                              ("terminate", VFun)])))
  /\ issued (trace (snd out))
     = (issued (trace Sample.fresh) ++
        [JSON.stringify (putProp "counter" (VNum 0)
                           [("originIP", VStr "1.2.3.4");
                            ("terminate", VFun)]);
         JSON.stringify (putProp "counter" (VNum 1)
                           (putProp "counter" (VNum 0)
                              [("originIP", VStr "1.2.3.4");
                               ("terminate", VFun)]))])%list.
Proof.
  split; [reflexivity|]. split; [reflexivity|]. split; [reflexivity|].
  exact (two_sets_issue_twice Sample.sign Sample.this Sample.first_visit
           "counter" "counter" (RNum 0) (RNum 1) (VNum 0) (VNum 1)
           Sample.fresh _ eq_refl eq_refl eq_refl eq_refl eq_refl eq_refl
           eq_refl eq_refl eq_refl eq_refl).
Defined.

(** On a session as the constructor returned it, [terminate()] clears the
    cookie and puts a new session for the origin of the request in its
    place. *)
Lemma terminate_of_a_built_session
      (req : request) (prev : option raw) (origin : string)
      (st : state) (h : value) :
  SessionObj.construct prev origin = Ok h ->
  clientSession st = Some h ->
  ClientSession.terminate req st =
    (Ok tt,
     {| clientSession :=
          Some (VProxy [] [("originIP", VStr (ip req)); ("terminate", VFun)]);
        trace := trace st ++ [ClearCookie "accessToken"] |}).
Proof.
  intros Hmake Hcur.
  unfold ClientSession.terminate, SessionObj.terminate.
  rewrite Hcur, (construct_has_terminate prev origin h Hmake). reflexivity.
Qed.

(** X13.  On a session as the constructor returned it, a set (of a plain
    value, under an ordinary key that is not reserved) that follows
    [terminate()] in the same request works on the new session: the cookie
    is cleared, then the issuance callback is called with the
    serialization of a tree that holds [originIP], the origin of the
    request, and the new key, and a cookie is set again.  Nothing of the
    tree before the termination is in it. *)
Theorem set_after_terminate
        (jwt_sign : Z -> Z -> string -> string -> string)
        (this : options) (req : request)
        (prev : option raw) (origin : string)
        (key : string) (v : raw) (v' : value) (st : state) (h : value) :
  SessionObj.construct prev origin = Ok h ->
  clientSession st = Some h ->
  ordinary_key key = true ->
  raw_plain v = true ->
  SessionObj.guard [key] = None ->
  wrap v [key] = Ok v' ->
  let data := putProp key v'
                [("originIP", VStr (ip req)); ("terminate", VFun)] in
  (ClientSession.terminate req ;;
   ClientSession.assign jwt_sign this req [] key v) st =
    (Ok tt,
     {| clientSession := Some (VProxy [] data);
        trace := trace st ++
          [ClearCookie "accessToken";
           Issue (JSON.stringify data);
           Cookie "accessToken"
                  (jwt_sign (Date_now req)
                            (Date_now req / 1000 + expiresIn this)
                            (JSON.stringify data) (secret this))
                  (Date_now req + expiresIn this) true] |}).
Proof.
  intros Hmake Hcur _ _ Hguard Hwrap data. subst data. unfold bind.
  rewrite (terminate_of_a_built_session req prev origin st h Hmake Hcur).
  erewrite (root_assign jwt_sign this req key v v');
    [|reflexivity|exact Hguard|exact Hwrap].
  cbn [trace]. rewrite <- app_assoc. reflexivity.
Qed.

Lemma set_after_terminate_witness :
  SessionObj.construct (Some Sample.elsewhere) "1.2.3.4"
  = Ok (VProxy [] [("originIP", VStr "5.6.7.8"); ("counter", VNum 3);
                   ("terminate", VFun)]) /\
  ordinary_key "seen" = true /\
  (ClientSession.terminate Sample.return_visit ;;
   ClientSession.assign Sample.sign Sample.this Sample.return_visit
                        [] "seen" (RBool true)) Sample.rebuilt =
    (Ok tt,
     {| clientSession :=
          Some (VProxy []
                  (putProp "seen" (VBool true)
                     [("originIP", VStr (ip Sample.return_visit));
                      ("terminate", VFun)]));
        trace := trace Sample.rebuilt ++
          [ClearCookie "accessToken";
           Issue (JSON.stringify
                    (putProp "seen" (VBool true)
                       [("originIP", VStr (ip Sample.return_visit));
                        ("terminate", VFun)]));
           Cookie "accessToken"
                  (Sample.sign (Date_now Sample.return_visit)
                     (Date_now Sample.return_visit / 1000
                      + expiresIn Sample.this)
                     (JSON.stringify
                        (putProp "seen" (VBool true)
                           [("originIP", VStr (ip Sample.return_visit));
                            ("terminate", VFun)]))
                     (secret Sample.this))
                  (Date_now Sample.return_visit + expiresIn Sample.this)
                  true] |}).
Proof.
  split; [reflexivity|]. split; [reflexivity|].
  exact (set_after_terminate Sample.sign Sample.this Sample.return_visit
           (Some Sample.elsewhere) "1.2.3.4" "seen" (RBool true) (VBool true)
           Sample.rebuilt _ eq_refl eq_refl eq_refl eq_refl eq_refl eq_refl).
Defined.

(* ===================================================================== *)
(** * The middleware and the constructor, in general *)

(** X14.  A request without the [accessToken] cookie: the token is not
    verified; [req.clientSession] becomes a new session whose tree holds
    [originIP], the origin of the request, and the [terminate] closure, and
    serializes to the object with the single member [originIP]; [next] is
    called, and no cookie is set. *)
Theorem first_visit_gets_an_anonymous_session
        (jwt_verify : Z -> string -> string -> verified)
        (JSON_parse : string -> result raw)
        (this : options) (req : request) (st : state) :
  accessToken req = None ->
  ClientSession.middleware jwt_verify JSON_parse this req st =
    (Ok tt,
     {| clientSession :=
          Some (VProxy [] [("originIP", VStr (ip req)); ("terminate", VFun)]);
        trace := trace st ++ [Next] |})
  /\ JSON.stringify [("originIP", VStr (ip req)); ("terminate", VFun)] =
       "{" ++ JSON.quote "originIP" ++ ":" ++ JSON.quote (ip req) ++ "}".
Proof.
  intros Htok. split; [|reflexivity].
  unfold ClientSession.middleware. rewrite Htok. reflexivity.
Qed.

Lemma first_visit_gets_an_anonymous_session_witness :
  accessToken Sample.first_visit = None /\
  ClientSession.middleware Sample.verify_expired Sample.parse Sample.strict
                           Sample.first_visit Sample.start =
    (Ok tt,
     {| clientSession :=
          Some (VProxy [] [("originIP", VStr (ip Sample.first_visit));
                           ("terminate", VFun)]);
        trace := trace Sample.start ++ [Next] |})
  /\ JSON.stringify [("originIP", VStr (ip Sample.first_visit));
                     ("terminate", VFun)] =
       "{" ++ JSON.quote "originIP" ++ ":"
           ++ JSON.quote (ip Sample.first_visit) ++ "}".
Proof.
  split; [reflexivity|].
  exact (first_visit_gets_an_anonymous_session Sample.verify_expired
           Sample.parse Sample.strict Sample.first_visit Sample.start
           eq_refl).
Defined.

(** X15.  A verified token whose payload is an object with [originIP]
    equal to the origin of the request, and would make a session: the
    request is let through whatever [restrictIPAccess] is, true
    included. *)
Theorem matching_origin_is_accepted
        (jwt_verify : Z -> string -> string -> verified)
        (JSON_parse : string -> result raw)
        (this : options) (req : request) (token : string)
        (exp : Z) (data : string) (ps : list (string * raw)) (s : value)
        (st : state) :
  accessToken req = Some token ->
  jwt_verify (Date_now req) token (secret this) = Payload exp data ->
  JSON_parse data = Ok (RObj ps) ->
  getProp "originIP" ps = Some (RStr (ip req)) ->
  SessionObj.construct (Some (RObj ps)) (ip req) = Ok s ->
  ClientSession.middleware jwt_verify JSON_parse this req st =
    (Ok tt, {| clientSession := Some s; trace := trace st ++ [Next] |}).
Proof.
  intros Htok Hver Hparse Horigin Hmake.
  unfold ClientSession.middleware. rewrite Htok, Hver.
  unfold bind, lift. rewrite Hparse.
  unfold ClientSession.originIP_differs. rewrite Horigin.
  rewrite String.eqb_refl. cbn [negb andb].
  unfold ClientSession.createSessionObj, lift. rewrite Hmake. reflexivity.
Qed.

Lemma matching_origin_is_accepted_witness :
  let req := {| accessToken := Some "token"; ip := "5.6.7.8";
                Date_now := 1700000000000 |} in
  ClientSession.middleware Sample.verify_ok Sample.parse Sample.strict
                           req Sample.start =
    (Ok tt,
     {| clientSession :=
          Some (VProxy [] [("originIP", VStr "5.6.7.8"); ("counter", VNum 3);
                           ("terminate", VFun)]);
        trace := trace Sample.start ++ [Next] |}).
Proof.
  intros req.
  exact (matching_origin_is_accepted Sample.verify_ok Sample.parse
           Sample.strict req "token" 1700000010 "token"
           [("originIP", RStr "5.6.7.8"); ("counter", RNum 3)]
           (VProxy [] [("originIP", VStr "5.6.7.8"); ("counter", VNum 3);
                       ("terminate", VFun)])
           Sample.start eq_refl eq_refl eq_refl eq_refl eq_refl).
Defined.

(** X16.  A verified token whose payload holds a [null] under any key but
    [terminate], at any depth, and that the origin check does not turn
    down: the constructor throws a [TypeError] out of the middleware.  No
    status is sent, [next] is not called and [req.clientSession] is as
    before. *)
Theorem null_in_the_payload_throws
        (jwt_verify : Z -> string -> string -> verified)
        (JSON_parse : string -> result raw)
        (this : options) (req : request) (token : string)
        (exp : Z) (data : string) (ps : list (string * raw))
        (st : state) :
  accessToken req = Some token ->
  jwt_verify (Date_now req) token (secret this) = Payload exp data ->
  JSON_parse data = Ok (RObj ps) ->
  null_free (RObj (putProp "terminate" RFun ps)) = false ->
  ClientSession.restricted this = false ->
  ClientSession.middleware jwt_verify JSON_parse this req st
  = (Throw TypeError, st).
Proof.
  intros Htok Hver Hparse Hnull Hoff.
  unfold ClientSession.middleware. rewrite Htok, Hver.
  unfold bind, lift. rewrite Hparse, Hoff.
  assert (Hd : exists d, ClientSession.originIP_differs req (RObj ps) = Ok d).
  { unfold ClientSession.originIP_differs.
    destruct (getProp "originIP" ps) as [[]|]; eexists; reflexivity. }
  destruct Hd as [d ->]. rewrite andb_false_r.
  unfold ClientSession.createSessionObj, lift, SessionObj.construct.
  pose proof (wrap_null (RObj (putProp "terminate" RFun ps)) [] Hnull) as H.
  unfold wrap in H. cbn [raw_typeof_object] in H. rewrite H. reflexivity.
Qed.

Lemma null_in_the_payload_throws_witness :
  let parse := fun _ : string =>
                 Ok (RObj [("originIP", RStr "1.2.3.4");
                           ("user", RObj [("nick", RNull)])]) in
  null_free (RObj (putProp "terminate" RFun
                     [("originIP", RStr "1.2.3.4");
                      ("user", RObj [("nick", RNull)])])) = false /\
  ClientSession.middleware Sample.verify_ok parse Sample.this
                           Sample.return_visit Sample.start
  = (Throw TypeError, Sample.start).
Proof.
  intros parse. split; [reflexivity|].
  exact (null_in_the_payload_throws Sample.verify_ok parse Sample.this
           Sample.return_visit "token" 1700000010 "token"
           [("originIP", RStr "1.2.3.4"); ("user", RObj [("nick", RNull)])]
           Sample.start eq_refl eq_refl eq_refl eq_refl eq_refl).
Defined.

Lemma some_inj {A} (a b : A) : Some a = Some b -> a = b.
Proof. intros H. injection H as ->. reflexivity. Qed.

Lemma putProp_absent {V} (k : string) (v : V) (ps : list (string * V)) :
  getProp k ps = None -> putProp k v ps = (ps ++ [(k, v)])%list.
Proof.
  induction ps as [|[k' w] ps IH]; simpl; [reflexivity|].
  destruct (String.eqb k k'); [discriminate|].
  intros H. rewrite (IH H). reflexivity.
Qed.

Lemma members_app (ps qs : list (string * value)) :
  JSON.members (ps ++ qs) = (JSON.members ps ++ JSON.members qs)%list.
Proof.
  induction ps as [|[k w] ps IH]; [reflexivity|].
  cbn [app JSON.members]. destruct (JSON.serialize w); rewrite IH;
    reflexivity.
Qed.

(** X17.  A session rebuilt from a payload keeps the [originIP] of the
    payload, not the origin of the request it is rebuilt in, and holds the
    [terminate] closure, also when the payload had a member [terminate] of
    its own. *)
Theorem rebuilt_session_keeps_its_origin
        (ps : list (string * raw)) (ip origin : string) (h : value) :
  SessionObj.construct (Some (RObj ps)) ip = Ok h ->
  getProp "originIP" ps = Some (RStr origin) ->
  get h "originIP" = Some (VStr origin)
  /\ get h "terminate" = Some VFun.
Proof.
  intros Hmake Horigin. split.
  - unfold SessionObj.construct in Hmake. rewrite proxify_obj in Hmake.
    destruct (DeepProxy.proxify_props [] (putProp "terminate" RFun ps))
      as [ps'|e] eqn:Hps; [|discriminate].
    injection Hmake as <-.
    assert (Hget : getProp "originIP" (putProp "terminate" RFun ps)
                   = Some (RStr origin))
      by (rewrite getProp_putProp_other; [exact Horigin|discriminate]).
    destruct (proxify_props_get [] "originIP" (RStr origin) _ ps' Hps Hget)
      as [v' [Hwrap Hv']].
    injection Hwrap as <-. exact Hv'.
  - exact (construct_has_terminate (Some (RObj ps)) ip h Hmake).
Qed.

Lemma rebuilt_session_keeps_its_origin_witness :
  SessionObj.construct
    (Some (RObj [("originIP", RStr "5.6.7.8"); ("terminate", RNum 0)]))
    "1.2.3.4"
  = Ok (VProxy [] [("originIP", VStr "5.6.7.8"); ("terminate", VFun)]) /\
  get (VProxy [] [("originIP", VStr "5.6.7.8"); ("terminate", VFun)])
      "originIP" = Some (VStr "5.6.7.8") /\
  get (VProxy [] [("originIP", VStr "5.6.7.8"); ("terminate", VFun)])
      "terminate" = Some VFun.
Proof.
  split; [reflexivity|].
  exact (rebuilt_session_keeps_its_origin
           [("originIP", RStr "5.6.7.8"); ("terminate", RNum 0)]
           "1.2.3.4" "5.6.7.8" _ eq_refl eq_refl).
Defined.

(** X18.  Rebuilding and serializing is a round trip: a session rebuilt
    from a payload that has no member [terminate] serializes, before any
    mutation, to the same string as the payload itself.  The closure and
    the proxies leave no mark in it. *)
Theorem rebuilt_session_serializes_to_its_payload
        (ps : list (string * raw)) (ip : string) (h : value) :
  SessionObj.construct (Some (RObj ps)) ip = Ok h ->
  getProp "terminate" ps = None ->
  JSON.stringify (data_of h) = JSON.stringify (data_of (inject (RObj ps))).
Proof.
  intros Hmake Hnone. unfold SessionObj.construct in Hmake.
  pose proof (unproxy_serialize h) as Hser.
  rewrite (unproxy_wrap (RObj (putProp "terminate" RFun ps)) [] h Hmake)
    in Hser.
  cbn [fst] in Hser.
  rewrite proxify_obj in Hmake.
  destruct (DeepProxy.proxify_props [] (putProp "terminate" RFun ps))
    as [ps'|e]; [|discriminate].
  injection Hmake as <-. rewrite serialize_proxy in Hser.
  cbn [inject] in Hser. rewrite serialize_obj in Hser.
  apply some_inj in Hser. cbn [data_of inject]. rewrite <- Hser.
  rewrite (putProp_absent "terminate" RFun ps Hnone).
  unfold JSON.stringify. rewrite map_app, members_app.
  cbn [map fst snd inject JSON.members JSON.serialize].
  rewrite app_nil_r. reflexivity.
Qed.

Lemma rebuilt_session_serializes_to_its_payload_witness :
  SessionObj.construct (Some Sample.elsewhere) "1.2.3.4"
  = Ok (VProxy [] [("originIP", VStr "5.6.7.8"); ("counter", VNum 3);
                   ("terminate", VFun)]) /\
  JSON.stringify (data_of (VProxy [] [("originIP", VStr "5.6.7.8");
                                      ("counter", VNum 3);
                                      ("terminate", VFun)]))
  = JSON.stringify (data_of (inject Sample.elsewhere)).
Proof.
  split; [reflexivity|].
  exact (rebuilt_session_serializes_to_its_payload
           [("originIP", RStr "5.6.7.8"); ("counter", RNum 3)] "1.2.3.4" _
           eq_refl eq_refl).
Defined.


Lemma wrap_function (v : raw) (path : list string) :
  wrap v path = Ok VFun -> v = RFun.
Proof.
  destruct v; try discriminate; [reflexivity|].
  unfold wrap. cbn [raw_typeof_object]. rewrite proxify_obj.
  destruct (DeepProxy.proxify_props path props); discriminate.
Qed.

(** X20.  A set of [terminate] on the root throws, but the value is
    stored over the closure: unless the value is the closure again, a
    [terminate()] after it throws a [TypeError], the cookie is not cleared
    and the session is not replaced. *)
Theorem rejected_set_of_terminate_disables_it
        (jwt_sign : Z -> Z -> string -> string -> string)
        (this : options) (req : request)
        (v : raw) (v' : value) (st : state)
        (data : list (string * value)) :
  clientSession st = Some (VProxy [] data) ->
  wrap v ["terminate"] = Ok v' ->
  v <> RFun ->
  let out := ClientSession.assign jwt_sign this req [] "terminate" v st in
  is_ok (fst out) = false
  /\ ClientSession.terminate req (snd out) = (Throw TypeError, snd out).
Proof.
  intros Hcur Hwrap Hv out. subst out.
  rewrite (reserved_assign_is_stored jwt_sign this req "terminate" v v' st
             data Hcur (or_intror eq_refl) Hwrap).
  cbn [fst snd]. split; [reflexivity|].
  unfold ClientSession.terminate, SessionObj.terminate.
  cbn [clientSession get]. rewrite getProp_putProp.
  destruct v'; try reflexivity.
  exfalso. exact (Hv (wrap_function v _ Hwrap)).
Qed.

Lemma rejected_set_of_terminate_disables_it_witness :
  clientSession Sample.fresh =
    Some (VProxy [] [("originIP", VStr "1.2.3.4"); ("terminate", VFun)]) /\
  let out := ClientSession.assign Sample.sign Sample.this Sample.first_visit
                                  [] "terminate" (RBool false)
                                  Sample.fresh in
  is_ok (fst out) = false
  /\ ClientSession.terminate Sample.first_visit (snd out)
     = (Throw TypeError, snd out).
Proof.
  split; [reflexivity|].
  exact (rejected_set_of_terminate_disables_it Sample.sign Sample.this
           Sample.first_visit (RBool false) (VBool false) Sample.fresh _
           eq_refl eq_refl
           (fun H : RBool false = RFun =>
              match H in _ = r
                    return match r with RFun => False | _ => True end
              with eq_refl => I end)).
Defined.

(* ===================================================================== *)
(** * Origin binding *)






(* ===================================================================== *)
(** * The guard and the mutations *)










